(** * VSPEC GCM planet container: header and binary payload

    A shallow embedding of [VSPEC/gcm/planet.py]: the [Winds], [Molecules],
    [Aerosols] collections and the [Planet] aggregate with its validation,
    coordinate axes, header string, flat buffer and encoded bytes.

    Conventions of the embedding:
    - a Python [str] is the Rocq [string] of its UTF-8 bytes, so
      [bytes(s, encoding='UTF-8')] is [list_byte_of_string];
    - [None] in an attribute is [None] of an [option]; reading an attribute of
      [None] raises [AttributeError];
    - a raised exception is the [Raise] branch of [result];
    - a [float32] is its IEEE-754 bit pattern, an integer below [2^32];
    - Python floats that hold angles are exact rationals ([Fin q]), with
      [PInf] for the quotient of a positive number by zero; where such a
      number is printed, the text is that of the double nearest to it. *)

From Stdlib Require Import List ZArith QArith Lia Bool.
From Stdlib.Strings Require Import String Ascii Byte.
From Stdlib Require Import DecimalString DecimalNat DecimalZ.
From Stdlib Require Import Qabs Lqa.
Import ListNotations.

Local Open Scope string_scope.
Local Open Scope list_scope.

(** ** Exceptions *)

Inductive exn : Type :=
| TypeError (msg : string)
| AssertionError
| AttributeError
| ValueError
| KeyError (key : string).

Inductive result (A : Type) : Type :=
| Ok (a : A)
| Raise (e : exn).

Arguments Ok {A} a.
Arguments Raise {A} e.

Definition bind {A B : Type} (m : result A) (k : A -> result B) : result B :=
  match m with
  | Ok a => k a
  | Raise e => Raise e
  end.

Notation "x <- m ;; k" := (bind m (fun x => k))
  (at level 61, m at next level, right associativity).
Notation "m ;;; k" := (bind m (fun _ => k))
  (at level 61, right associativity).

Definition raises {A : Type} (m : result A) : Prop := exists e, m = Raise e.

(** [assert b] *)
Definition assert (b : bool) : result unit :=
  if b then Ok tt else Raise AssertionError.

(** [o.attr] for an [o] that may be [None] *)
Definition attr {A : Type} (o : option A) : result A :=
  match o with
  | Some a => Ok a
  | None => Raise AttributeError
  end.

(** [for x in xs: body(x)] *)
Fixpoint for_each {A : Type} (body : A -> result unit) (xs : list A) : result unit :=
  match xs with
  | [] => Ok tt
  | x :: xs' => body x ;;; for_each body xs'
  end.

(** [[f(x) for x in xs]] where [f] may raise *)
Fixpoint map_m {A B : Type} (f : A -> result B) (xs : list A) : result (list B) :=
  match xs with
  | [] => Ok []
  | x :: xs' => y <- f x ;; ys <- map_m f xs' ;; Ok (y :: ys)
  end.

(** ** Arrays *)

Definition float32 : Type := Z.

Definition shape_t : Type := list nat.

Definition shape_eqb (s1 s2 : shape_t) : bool :=
  if list_eq_dec Nat.eq_dec s1 s2 then true else false.

(** number of elements of an array of shape [s] *)
Definition size_of (s : shape_t) : nat := fold_right Nat.mul 1%nat s.

(** A numpy array: its shape and its elements in row-major order. *)
Record ndarray : Type := mk_ndarray {
  arr_shape : shape_t;
  arr_data : list float32
}.

Definition ndarray_wf (a : ndarray) : Prop :=
  List.length (arr_data a) = size_of (arr_shape a).

(** [np.concatenate(arrays, dtype='float32')] on 1-D arrays: numpy refuses an
    empty sequence of arrays. The elements are [float32] already, so the cast
    leaves them as they are. *)
Definition np_concatenate (arrays : list (list float32)) : result (list float32) :=
  match arrays with
  | [] => Raise ValueError
  | _ => Ok (List.concat arrays)
  end.

Inductive byteorder : Type := LittleEndian | BigEndian.

Definition byte_of_Z (z : Z) : byte :=
  match Byte.of_N (Z.to_N (z mod 256)) with
  | Some b => b
  | None => x00
  end.

Definition float32_bytes (native : byteorder) (x : float32) : list byte :=
  let b0 := byte_of_Z x in
  let b1 := byte_of_Z (Z.shiftr x 8) in
  let b2 := byte_of_Z (Z.shiftr x 16) in
  let b3 := byte_of_Z (Z.shiftr x 24) in
  match native with
  | LittleEndian => [b0; b1; b2; b3]
  | BigEndian => [b3; b2; b1; b0]
  end.

(** [a.tobytes('C')] of a 1-D [float32] array *)
Definition tobytes (native : byteorder) (a : list float32) : list byte :=
  flat_map (float32_bytes native) a.

(** ** Fields (VSPEC.gcm.structure) *)

(** Modelled from the spec: [VSPEC/gcm/structure.py] is not among the sources.
    A Field is a named, unit-tagged grid; [shape] is the shape of its values
    and [flat] the 32-bit-float view of the values in row-major order. *)
Record Field : Type := mk_Field {
  name : string;
  unit_tag : string;
  dat : ndarray
}.

Definition Field_shape (f : Field) : shape_t := arr_shape (dat f).

Definition Field_flat (f : Field) : list float32 := arr_data (dat f).

Definition Field_wf (f : Field) : Prop := ndarray_wf (dat f).

(** Modelled from the spec: the [constant] factory of a Field broadcasts a
    scalar to fill the shape. *)
Definition Field_constant (nm un : string) (value : float32) (shape : shape_t) : Field :=
  {| name := nm; unit_tag := un;
     dat := {| arr_shape := shape; arr_data := repeat value (size_of shape) |} |}.

(** ** Winds *)

Module Winds.

Record t : Type := mk {
  wind_u : Field;
  wind_v : Field
}.

Definition flat (self : t) : result (list float32) :=
  np_concatenate [Field_flat (wind_u self); Field_flat (wind_v self)].

End Winds.

(** ** Quantities read from a configuration mapping *)

(** A configuration value as it comes out of the nested mapping, and what
    [u.Quantity] makes of it: a number with a unit, or an exception. *)
Definition quantity : Type := (float32 * string)%type.

(** A Python [dict] with string keys, in insertion order. *)
Definition dict (V : Type) : Type := list (string * V).

Fixpoint getitem {V : Type} (d : dict V) (key : string) : result V :=
  match d with
  | [] => Raise (KeyError key)
  | (k, v) :: d' => if String.eqb k key then Ok v else getitem d' key
  end.

(** ** Molecules *)

Module Molecules.

Record t : Type := mk {
  molecules : list Field
}.

Definition flat (self : t) : result (list float32) :=
  np_concatenate (map Field_flat (molecules self)).

Section FromDict.
Context {raw : Type} (Quantity : raw -> result quantity).

Definition _from_dict (d : dict raw) (shape : shape_t) : result t :=
  molecules <- map_m (fun '(key, val) =>
                        let name := key in
                        value <- Quantity val ;;
                        Ok (Field_constant name (snd value) (fst value) shape)) d ;;
  Ok (mk molecules).

Definition from_dict (d : dict raw) (shape : shape_t) : result t :=
  _from_dict d shape.
End FromDict.

End Molecules.

(** ** Aerosols *)

Module Aerosols.

Record t : Type := mk {
  aerosols : list Field;
  sizes : list Field
}.

Definition flat (self : t) : result (list float32) :=
  np_concatenate (map Field_flat (aerosols self) ++ map Field_flat (sizes self)).

Section FromDict.
Context {raw : Type} (Quantity : raw -> result quantity).

(** The loop body appends to the two local lists [aersols] and [sizes];
    the state of the loop is the pair of lists. *)
Definition _from_dict_step (shape : shape_t) (st : list Field * list Field)
    (item : string * dict raw) : result (list Field * list Field) :=
  let '(aersols, sizes) := st in
  let '(key, value) := item in
  let name := key in
  a <- getitem value "abn" ;;
  abn <- Quantity a ;;
  s <- getitem value "size" ;;
  size <- Quantity s ;;
  let aersols := aersols ++ [Field_constant name (snd abn) (fst abn) shape] in
  let sizes := sizes ++ [Field_constant (name ++ "_size")%string (snd size) (fst size) shape] in
  Ok (aersols, sizes).

Fixpoint _from_dict_loop (shape : shape_t) (st : list Field * list Field)
    (items : dict (dict raw)) : result (list Field * list Field) :=
  match items with
  | [] => Ok st
  | item :: items' =>
      st' <- _from_dict_step shape st item ;;
      _from_dict_loop shape st' items'
  end.

(** The function ends after the loop without a [return]: its value is
    Python's [None]. *)
Definition _from_dict (d : dict (dict raw)) (shape : shape_t) : result (option t) :=
  _from_dict_loop shape ([], []) d ;;;
  Ok None.

Definition from_dict (d : dict (dict raw)) (shape : shape_t) : result (option t) :=
  _from_dict d shape.
End FromDict.

End Aerosols.


(** ** Numbers and their text *)

(** [str(n)] and [f'{n}'] of a Python [int] *)
Definition str_nat (n : nat) : string := NilEmpty.string_of_uint (Nat.to_uint n).

Definition str_Z (z : Z) : string := NilZero.string_of_int (Z.to_int z).


Inductive pyfloat : Type :=
| Fin (q : Q)
| PInf.

(** [a / n] for a positive [a]: numpy gives [inf] (and a warning, not an
    exception) when [n] is zero. *)
Definition true_divide (a : Q) (n : nat) : pyfloat :=
  match n with
  | O => PInf
  | S _ => Fin (a / inject_Z (Z.of_nat n))
  end.

(** nearest integer to a non-negative [q], ties to even *)
Definition round_half_even (q : Q) : Z :=
  let n := Qnum q in
  let d := Zpos (Qden q) in
  let fl := (n / d)%Z in
  let r := (n mod d)%Z in
  match (2 * r ?= d)%Z with
  | Lt => fl
  | Gt => (fl + 1)%Z
  | Eq => if Z.even fl then fl else (fl + 1)%Z
  end.

Definition two_digits (n : Z) : string :=
  ((if (n <? 10)%Z then "0" else "") ++ str_Z n)%string.

(** [2**e] for an integer [e] of either sign *)
Definition Qpow2 (e : Z) : Q :=
  if (0 <=? e)%Z then inject_Z (2 ^ e) else 1 # Z.to_pos (2 ^ (- e)).

(** The binary64 number nearest to a non-negative rational, ties to even: 53
    significant bits, on the grid of [2**-1074] below the normal range. This
    is the double that holds the quotient [360 / n] or [180 / n] after the
    division has rounded it; the quotients lie far below the largest
    binary64 number. *)
Definition round_binary64 (q : Q) : Q :=
  if (Qnum q <=? 0)%Z then 0
  else
    let e0 := (Z.log2 (Qnum q) - Z.log2 (Zpos (Qden q)))%Z in
    let b := if Qle_bool (Qpow2 e0) q then e0 else (e0 - 1)%Z in
    let e := Z.max (b - 52) (-1074) in
    inject_Z (round_half_even (q * Qpow2 (- e))) * Qpow2 e.

(** [f'{x:.2f}']: Python prints the double it holds, correctly rounded to two
    decimals (ties of the double's exact value to even). [Fin q] carries the
    exact quotient, so the double is taken first. *)
Definition format_2f (x : pyfloat) : string :=
  match x with
  | PInf => "inf"
  | Fin q =>
      let h := round_half_even (round_binary64 (Qabs q) * 100) in
      ((if (Qnum q <? 0)%Z then "-" else "")
         ++ str_Z (h / 100) ++ "." ++ two_digits (h mod 100))%string
  end.

(** [np.linspace(start, stop, num, endpoint=...)]: [num] samples
    [start + i * step], the last one set to [stop] when the end point is
    included and there is more than one sample. *)
Definition linspace (start stop : Q) (num : nat) (endpoint : bool) : list Q :=
  let div := if endpoint then (num - 1)%nat else num in
  let delta := stop - start in
  let step := match div with
              | O => delta
              | S _ => delta / inject_Z (Z.of_nat div)
              end in
  let y := map (fun i => inject_Z (Z.of_nat i) * step + start) (seq 0 num) in
  if endpoint && (1 <? num)%nat then removelast y ++ [stop] else y.

(** ** The lookup tables of VSPEC.config *)

Inductive mtype_value : Type :=
| MInt (n : Z)
| MStr (s : string).

(** [VSPEC/config.py] is not among the sources: the two name-to-type tables it
    exports are parameters of the functions that read them. *)
Record config : Type := mk_config {
  atmosphere_type_dict : dict mtype_value;
  aerosol_type_dict : dict string
}.

(** ** Planet *)

Module Planet.

Record t : Type := mk {
  wind : option Winds.t;
  tsurf : option Field;
  psurf : option Field;
  albedo : option Field;
  emissivity : option Field;
  temperature : option Field;
  pressure : option Field;
  molecules : option Molecules.t;
  aerosols : option Aerosols.t
}.

(** [if o is not None: body(o)] *)
Definition when_present {A : Type} (o : option A) (body : A -> result unit) : result unit :=
  match o with
  | Some a => body a
  | None => Ok tt
  end.

(** [assert f.shape == s] *)
Definition assert_shape (s : shape_t) (f : Field) : result unit :=
  assert (shape_eqb (Field_shape f) s).

Definition validate (self : t) : result unit :=
  match pressure self with
  | None => Raise (TypeError "pressure must be provided!")
  | Some pr =>
      let shape3d := Field_shape pr in
      let shape2d := tl shape3d in
      when_present (wind self) (fun w =>
        assert_shape shape3d (Winds.wind_u w) ;;;
        assert_shape shape3d (Winds.wind_v w)) ;;;
      (ps <- attr (psurf self) ;; assert_shape shape2d ps) ;;;
      when_present (tsurf self) (assert_shape shape2d) ;;;
      when_present (albedo self) (assert_shape shape2d) ;;;
      when_present (emissivity self) (assert_shape shape2d) ;;;
      when_present (temperature self) (assert_shape shape3d) ;;;
      when_present (molecules self) (fun ms =>
        for_each (assert_shape shape3d) (Molecules.molecules ms)) ;;;
      when_present (aerosols self) (fun aes =>
        for_each (assert_shape shape3d) (Aerosols.aerosols aes) ;;;
        for_each (assert_shape shape3d) (Aerosols.sizes aes))
  end.

Definition __init__
    (wind : option Winds.t) (tsurf psurf albedo emissivity temperature pressure : option Field)
    (molecules : option Molecules.t) (aerosols : option Aerosols.t) : result t :=
  let self := mk wind tsurf psurf albedo emissivity temperature pressure molecules aerosols in
  validate self ;;;
  Ok self.

Definition shape (self : t) : result (nat * nat * nat) :=
  pr <- attr (pressure self) ;;
  match Field_shape pr with
  | [nlayers; nlon; lat] => Ok (nlayers, nlon, lat)
  | _ => Raise ValueError
  end.

Definition lons (self : t) : result (list Q) :=
  s <- shape self ;;
  let '(_, nlon, _) := s in
  Ok (linspace (-180) 180 nlon false).

Definition dlon (self : t) : result pyfloat :=
  s <- shape self ;;
  let '(_, nlon, _) := s in
  Ok (true_divide 360 nlon).

Definition dlat (self : t) : result pyfloat :=
  s <- shape self ;;
  let '(_, _, nlat) := s in
  Ok (true_divide 180 nlat).

Definition lats (self : t) : result (list Q) :=
  s <- shape self ;;
  let '(_, _, nlat) := s in
  Ok (linspace (-90) 90 nlat true).

(** the local [coords] of [gcm_properties] *)
Definition gcm_coords (self : t) : result string :=
  s <- shape self ;;
  let '(nlayer, nlon, nlat) := s in
  d_lon <- dlon self ;;
  d_lat <- dlat self ;;
  Ok (str_nat nlon ++ "," ++ str_nat nlat ++ "," ++ str_nat nlayer
        ++ ",-180.0,-90.0," ++ format_2f d_lon ++ "," ++ format_2f d_lat)%string.

(** [if o is not None: vars.append(tok(o))] *)
Definition append_if {A : Type} (vars : list string) (o : option A) (tok : A -> string)
    : list string :=
  match o with
  | Some a => vars ++ [tok a]
  | None => vars
  end.

(** the local [vars] of [gcm_properties] *)
Definition gcm_vars (self : t) : result (list string) :=
  let vars := [] in
  let vars := append_if vars (wind self) (fun _ => "Winds") in
  let vars := append_if vars (tsurf self) name in
  ps <- attr (psurf self) ;;
  let vars := vars ++ [name ps] in
  let vars := append_if vars (albedo self) name in
  let vars := append_if vars (emissivity self) name in
  let vars := append_if vars (temperature self) name in
  pr <- attr (pressure self) ;;
  let vars := vars ++ [name pr] in
  let vars := match molecules self with
              | Some ms => vars ++ map name (Molecules.molecules ms)
              | None => vars
              end in
  let vars := match aerosols self with
              | Some aes =>
                  (vars ++ map name (Aerosols.aerosols aes)) ++ map name (Aerosols.sizes aes)
              | None => vars
              end in
  Ok vars.

Definition gcm_properties (self : t) : result string :=
  coords <- gcm_coords self ;;
  vars <- gcm_vars self ;;
  Ok (coords ++ "," ++ String.concat "," vars)%string.

(** [[] if o is None else flat(o)] *)
Definition flat_or_empty {A : Type} (o : option A) (flat : A -> result (list float32))
    : result (list float32) :=
  match o with
  | None => Ok []
  | Some a => flat a
  end.

Definition flat (self : t) : result (list float32) :=
  a0 <- flat_or_empty (wind self) Winds.flat ;;
  a1 <- flat_or_empty (tsurf self) (fun f => Ok (Field_flat f)) ;;
  ps <- attr (psurf self) ;;
  let a2 := Field_flat ps in
  a3 <- flat_or_empty (albedo self) (fun f => Ok (Field_flat f)) ;;
  a4 <- flat_or_empty (emissivity self) (fun f => Ok (Field_flat f)) ;;
  a5 <- flat_or_empty (temperature self) (fun f => Ok (Field_flat f)) ;;
  pr <- attr (pressure self) ;;
  let a6 := Field_flat pr in
  a7 <- flat_or_empty (molecules self) Molecules.flat ;;
  a8 <- flat_or_empty (aerosols self) Aerosols.flat ;;
  np_concatenate [a0; a1; a2; a3; a4; a5; a6; a7; a8].

(** [f'HIT[{mtype[gas]}]' if isinstance(mtype[gas],int) else mtype[gas]] *)
Definition gas_type (mtype : dict mtype_value) (gas : string) : result string :=
  v <- getitem mtype gas ;;
  match v with
  | MInt n => Ok ("HIT[" ++ str_Z n ++ "]")%string
  | MStr s => Ok s
  end.

Definition psg_params (cfg : config) (self : t) : result (dict string) :=
  let mtype := atmosphere_type_dict cfg in
  let atype := aerosol_type_dict cfg in
  s <- shape self ;;
  let '(nlayers, _, _) := s in
  ms <- attr (molecules self) ;;
  let gases := map name (Molecules.molecules ms) in
  let aerosols := match aerosols self with
                  | Some aes => map name (Aerosols.aerosols aes)
                  | None => []
                  end in
  gas_types <- map_m (gas_type mtype) gases ;;
  aerosol_types <- map_m (getitem atype) aerosols ;;
  gcm_params <- gcm_properties self ;;
  let params :=
    [ ("ATMOSPHERE-DESCRIPTION", "Variable Star Phase CurvE (VSPEC) default GCM");
      ("ATMOSPHERE-STRUCTURE", "Equilibrium");
      ("ATMOSPHERE-LAYERS", str_nat nlayers);
      ("ATMOSPHERE-NGAS", str_nat (List.length gases));
      ("ATMOSPHERE-GAS", String.concat "," gases);
      ("ATMOSPHERE-TYPE", String.concat "," gas_types);
      ("ATMOSPHERE-ABUN", String.concat "," (repeat "1" (List.length gases)));
      ("ATMOSPHERE-UNIT", String.concat "," (repeat "scl" (List.length gases)));
      ("ATMOSPHERE-GCM-PARAMETERS", gcm_params) ] in
  let params :=
    if (0 <? List.length aerosols)%nat then
      params ++
      [ ("ATMOSPHERE-NAERO", str_nat (List.length aerosols));
        ("ATMOSPHERE-AEROS", String.concat "," aerosols);
        ("ATMOSPHERE-ATYPE", String.concat "," aerosol_types);
        ("ATMOSPHERE-AABUN", String.concat "," (repeat "1" (List.length aerosols)));
        ("ATMOSPHERE-AUNIT", String.concat "," (repeat "scl" (List.length aerosols)));
        ("ATMOSPHERE-ASIZE", String.concat "," (repeat "1" (List.length aerosols)));
        ("ATMOSPHERE-ASUNI", String.concat "," (repeat "scl" (List.length aerosols))) ]
    else params in
  Ok params.

Definition newline : string := String "010"%char EmptyString.

Definition open_delim : list byte := list_byte_of_string (newline ++ "<BINARY>")%string.

Definition close_delim : list byte := list_byte_of_string "</BINARY>".

(** the local [config] of [content] *)
Definition config_text (params : dict string) : string :=
  String.concat newline (map (fun '(param, value) => ("<" ++ param ++ ">" ++ value)%string) params).

(** [native] is the byte order of the machine, in which [tobytes] writes each
    element. *)
Definition content (native : byteorder) (cfg : config) (self : t) : result (list byte) :=
  params <- psg_params cfg self ;;
  let config := config_text params in
  let content := list_byte_of_string config in
  fl <- flat self ;;
  let dat := tobytes native fl in
  Ok (content ++ open_delim ++ dat ++ close_delim).

End Planet.


(** ** Planet.from_dict *)

(** [VSPEC/gcm/structure.py] is not among the sources: the factories of its
    field classes that [Planet.from_dict] calls, and the conversions [int],
    [float] and [u.Quantity] it applies to the entries of the mapping, are the
    members of this interface. Each of them returns its value or raises. *)
Record structure_api (raw pyfloat_t : Type) : Type := mk_structure_api {
  py_int : raw -> result nat;
  py_float : raw -> result pyfloat_t;
  Quantity : raw -> result quantity;
  SurfaceTemperature_from_map :
    shape_t -> pyfloat_t -> quantity -> pyfloat_t -> quantity -> quantity -> result Field;
  Pressure_from_limits : quantity -> quantity -> shape_t -> result Field;
  Wind_contant : string -> quantity -> shape_t -> result Field;
  SurfacePressure_from_pressure : Field -> result Field;
  Albedo_constant : quantity -> shape_t -> result Field;
  Emissivity_constant : quantity -> shape_t -> result Field;
  Temperature_from_adiabat : pyfloat_t -> Field -> Field -> result Field
}.

Arguments py_int {raw pyfloat_t} _ _.
Arguments py_float {raw pyfloat_t} _ _.
Arguments Quantity {raw pyfloat_t} _ _.
Arguments SurfaceTemperature_from_map {raw pyfloat_t} _ _ _ _ _ _ _.
Arguments Pressure_from_limits {raw pyfloat_t} _ _ _ _.
Arguments Wind_contant {raw pyfloat_t} _ _ _ _.
Arguments SurfacePressure_from_pressure {raw pyfloat_t} _ _.
Arguments Albedo_constant {raw pyfloat_t} _ _ _.
Arguments Emissivity_constant {raw pyfloat_t} _ _ _.
Arguments Temperature_from_adiabat {raw pyfloat_t} _ _ _ _.

(** An entry of the ['planet'] section: a value, or a nested mapping of values
    (['pressure'], ['wind']). *)
Inductive section_value (raw : Type) : Type :=
| Leaf (r : raw)
| Sub (d : dict raw).

Arguments Leaf {raw} r.
Arguments Sub {raw} d.

(** The nested mapping [Planet.from_dict] reads. A section that is [None] here
    is a key that is missing; for ['aerosols'], which is read with [d.get], it
    is also a key whose value is [None]. *)
Record planet_mapping (raw : Type) : Type := mk_planet_mapping {
  map_shape : option (dict raw);
  map_planet : option (dict (section_value raw));
  map_molecules : option (dict raw);
  map_aerosols : option (dict (dict raw))
}.

Arguments map_shape {raw} _.
Arguments map_planet {raw} _.
Arguments map_molecules {raw} _.
Arguments map_aerosols {raw} _.

(** [d[key]] at the top of the mapping *)
Definition section {A : Type} (o : option A) (key : string) : result A :=
  match o with
  | Some a => Ok a
  | None => Raise (KeyError key)
  end.

Module PlanetFactory.

Section FromDict.
Context {raw pyfloat_t : Type} (st : structure_api raw pyfloat_t).

(** [conv(d['planet'][key])] for a conversion of values: a nested mapping is
    not a value the conversion accepts. *)
Definition planet_value {A : Type} (conv : raw -> result A)
    (planet : dict (section_value raw)) (key : string) : result A :=
  v <- getitem planet key ;;
  match v with
  | Leaf r => conv r
  | Sub _ => Raise (TypeError "not a value")
  end.

(** [u.Quantity(d['planet'][key][sub])]: a plain value cannot be subscripted by
    a key. *)
Definition planet_subvalue (planet : dict (section_value raw)) (key sub : string)
    : result quantity :=
  v <- getitem planet key ;;
  match v with
  | Leaf _ => Raise (TypeError "not subscriptable")
  | Sub d => r <- getitem d sub ;; Quantity st r
  end.

Definition from_dict (d : planet_mapping raw) : result Planet.t :=
  sh <- section (map_shape d) "shape" ;;
  r <- getitem sh "nlayer" ;; nlayer <- py_int st r ;;
  sh <- section (map_shape d) "shape" ;;
  r <- getitem sh "nlon" ;; nlon <- py_int st r ;;
  sh <- section (map_shape d) "shape" ;;
  r <- getitem sh "nlat" ;; nlat <- py_int st r ;;
  let shape2d := [nlon; nlat] in
  let shape3d := [nlayer; nlon; nlat] in
  pl <- section (map_planet d) "planet" ;;
  epsilon <- planet_value (py_float st) pl "epsilon" ;;
  star_teff <- planet_value (Quantity st) pl "teff_star" ;;
  albedo_f <- planet_value (py_float st) pl "albedo" ;;
  r_star <- planet_value (Quantity st) pl "r_star" ;;
  r_orbit <- planet_value (Quantity st) pl "r_orbit" ;;
  tsurf <- SurfaceTemperature_from_map st shape2d epsilon star_teff albedo_f r_star r_orbit ;;
  high <- planet_subvalue pl "pressure" "psurf" ;;
  low <- planet_subvalue pl "pressure" "ptop" ;;
  pressure <- Pressure_from_limits st high low shape3d ;;
  u_val <- planet_subvalue pl "wind" "U" ;;
  wind_u <- Wind_contant st "U" u_val shape3d ;;
  v_val <- planet_subvalue pl "wind" "V" ;;
  wind_v <- Wind_contant st "V" v_val shape3d ;;
  let wind := Winds.mk wind_u wind_v in
  psurf <- SurfacePressure_from_pressure st pressure ;;
  albedo_q <- planet_value (Quantity st) pl "albedo" ;;
  albedo <- Albedo_constant st albedo_q shape2d ;;
  emissivity_q <- planet_value (Quantity st) pl "emissivity" ;;
  emissivity <- Emissivity_constant st emissivity_q shape2d ;;
  gamma <- planet_value (py_float st) pl "gamma" ;;
  temperature <- Temperature_from_adiabat st gamma tsurf pressure ;;
  md <- section (map_molecules d) "molecules" ;;
  molecules <- Molecules.from_dict (Quantity st) md shape3d ;;
  aerosols <- match map_aerosols d with
              | None => Ok None
              | Some ad => Aerosols.from_dict (Quantity st) ad shape3d
              end ;;
  Planet.__init__ (Some wind) (Some tsurf) (Some psurf) (Some albedo) (Some emissivity)
                  (Some temperature) (Some pressure) (Some molecules) aerosols.

End FromDict.

End PlanetFactory.

(** ** VSPEC.stellar_spectra *)

(** The arithmetic of the floats that [get_wavelengths] works on: [lam + dlam],
    [lam / resolving_power] and [lam < lam2]. The quotient is [None] when the
    division raises: a Python float divided by the integer zero raises
    [ZeroDivisionError], a numpy float gives an infinity instead. *)
Record float_ops : Type := mk_float_ops {
  fl : Type;
  fadd : fl -> fl -> fl;
  fdiv_int : fl -> Z -> option fl;
  flt : fl -> fl -> bool
}.

Inductive outcome (A : Type) : Type :=
| Returned (a : A)
| ZeroDivisionError
| OutOfFuel.

Arguments Returned {A} a.
Arguments ZeroDivisionError {A}.
Arguments OutOfFuel {A}.

(** The [while lam < lam2] loop: [fuel] bounds the number of tests of the
    condition. *)
Fixpoint get_wavelengths_loop (ops : float_ops) (fuel : nat) (resolving_power : Z)
    (lam2 lam : fl ops) (lams : list (fl ops)) : outcome (list (fl ops)) :=
  match fuel with
  | O => OutOfFuel
  | S fuel' =>
      if flt ops lam lam2 then
        match fdiv_int ops lam resolving_power with
        | None => ZeroDivisionError
        | Some dlam =>
            let lam := fadd ops lam dlam in
            get_wavelengths_loop ops fuel' resolving_power lam2 lam (lams ++ [lam])
        end
      else Returned lams
  end.

Definition get_wavelengths (ops : float_ops) (fuel : nat) (resolving_power : Z)
    (lam1 lam2 : fl ops) : outcome (list (fl ops)) :=
  let lam := lam1 in
  let lams := [lam] in
  get_wavelengths_loop ops fuel resolving_power lam2 lam lams.

(** exact rational arithmetic, with the division of Python floats, as an
    instance of the interface *)
Definition Q_ops : float_ops :=
  {| fl := Q;
     fadd := Qplus;
     fdiv_int := fun x n => if (n =? 0)%Z then None else Some (x / inject_Z n)%Q;
     flt := fun x y => match Qlt_le_dec x y with left _ => true | right _ => false end |}.

(** * Specification-side definitions *)

(** Every field that is present has the canonical shape: the 3-D shape
    [shape3d] of the pressure, or the 2-D shape that is its tail. *)
Record shapes_agree (p : Planet.t) (shape3d : shape_t) : Prop := {
  agree_wind : forall w, Planet.wind p = Some w ->
      Field_shape (Winds.wind_u w) = shape3d /\ Field_shape (Winds.wind_v w) = shape3d;
  agree_psurf : exists ps, Planet.psurf p = Some ps /\ Field_shape ps = tl shape3d;
  agree_tsurf : forall f, Planet.tsurf p = Some f -> Field_shape f = tl shape3d;
  agree_albedo : forall f, Planet.albedo p = Some f -> Field_shape f = tl shape3d;
  agree_emissivity : forall f, Planet.emissivity p = Some f -> Field_shape f = tl shape3d;
  agree_temperature : forall f, Planet.temperature p = Some f -> Field_shape f = shape3d;
  agree_molecules : forall ms, Planet.molecules p = Some ms ->
      Forall (fun f => Field_shape f = shape3d) (Molecules.molecules ms);
  agree_aerosols : forall aes, Planet.aerosols p = Some aes ->
      Forall (fun f => Field_shape f = shape3d) (Aerosols.aerosols aes) /\
      Forall (fun f => Field_shape f = shape3d) (Aerosols.sizes aes)
}.

(** A Planet that exists: the one [__init__] returned. *)
Definition valid (p : Planet.t) : Prop := Planet.validate p = Ok tt.

(** A present field whose shape differs from the canonical one. *)
Inductive shape_mismatch (p : Planet.t) (shape3d : shape_t) : Prop :=
| mismatch_wind_u w :
    Planet.wind p = Some w -> Field_shape (Winds.wind_u w) <> shape3d ->
    shape_mismatch p shape3d
| mismatch_wind_v w :
    Planet.wind p = Some w -> Field_shape (Winds.wind_v w) <> shape3d ->
    shape_mismatch p shape3d
| mismatch_psurf f :
    Planet.psurf p = Some f -> Field_shape f <> tl shape3d -> shape_mismatch p shape3d
| mismatch_tsurf f :
    Planet.tsurf p = Some f -> Field_shape f <> tl shape3d -> shape_mismatch p shape3d
| mismatch_albedo f :
    Planet.albedo p = Some f -> Field_shape f <> tl shape3d -> shape_mismatch p shape3d
| mismatch_emissivity f :
    Planet.emissivity p = Some f -> Field_shape f <> tl shape3d -> shape_mismatch p shape3d
| mismatch_temperature f :
    Planet.temperature p = Some f -> Field_shape f <> shape3d -> shape_mismatch p shape3d
| mismatch_molecule ms f :
    Planet.molecules p = Some ms -> In f (Molecules.molecules ms) ->
    Field_shape f <> shape3d -> shape_mismatch p shape3d
| mismatch_aerosol aes f :
    Planet.aerosols p = Some aes -> In f (Aerosols.aerosols aes) ->
    Field_shape f <> shape3d -> shape_mismatch p shape3d
| mismatch_size aes f :
    Planet.aerosols p = Some aes -> In f (Aerosols.sizes aes) ->
    Field_shape f <> shape3d -> shape_mismatch p shape3d.

(** An entry of an aerosol mapping that the factory's loop body accepts: both
    keys are there and [u.Quantity] reads both values. *)
Definition entry_ok {raw : Type} (Quantity : raw -> result quantity)
    (item : string * dict raw) : Prop :=
  exists a s qa qs,
    getitem (snd item) "abn" = Ok a /\ Quantity a = Ok qa /\
    getitem (snd item) "size" = Ok s /\ Quantity s = Ok qs.

(** ** Sample data *)

(** the bit pattern of the [float32] nearest to [1e-3] *)
Definition abundance_1e_3 : float32 := 981668463%Z.

(** the bit pattern of [1.0] *)
Definition one_f32 : float32 := 1065353216%Z.

Definition sample_psurf (nlon nlat : nat) : Field :=
  Field_constant "Psurf" "bar" one_f32 [nlon; nlat].

Definition sample_pressure (nlayer nlon nlat : nat) : Field :=
  Field_constant "Pressure" "bar" one_f32 [nlayer; nlon; nlat].

(** A Planet with the two required fields only, on a grid of the given shape. *)
Definition bare_planet (nlayer nlon nlat : nat) (ms : option Molecules.t) : Planet.t :=
  Planet.mk None None (Some (sample_psurf nlon nlat)) None None None
            (Some (sample_pressure nlayer nlon nlat)) ms None.

(** The scenario of the specification: shape (2, 2, 2), the one gas H2O with
    the constant abundance 1e-3, no aerosols and no optional field. *)
Definition h2o_molecules : Molecules.t :=
  Molecules.mk [Field_constant "H2O" "" abundance_1e_3 [2; 2; 2]%nat].

Definition h2o_planet : Planet.t := bare_planet 2 2 2 (Some h2o_molecules).

(** The same scenario with a gas whose name holds a comma. *)
Definition comma_planet : Planet.t :=
  bare_planet 2 2 2
    (Some (Molecules.mk [Field_constant "H2O,CO2" "" abundance_1e_3 [2; 2; 2]%nat])).

Definition sample_config : config :=
  {| atmosphere_type_dict := [("H2O", MInt 1); ("CO2", MInt 2)];
     aerosol_type_dict := [("Water", "AFCRL_Water_HRI")] |}.

(** ** What the flat buffer is made of *)

Definition opt_flat {A : Type} (o : option A) (f : A -> list float32) : list float32 :=
  match o with
  | Some a => f a
  | None => []
  end.

(** The buffer as the specification lists it: wind_u then wind_v, tsurf, psurf,
    albedo, emissivity, temperature, pressure, each molecule, each aerosol
    abundance, each aerosol size; nothing for a field that is absent. *)
Definition spec_flat (p : Planet.t) : list float32 :=
  opt_flat (Planet.wind p)
           (fun w => Field_flat (Winds.wind_u w) ++ Field_flat (Winds.wind_v w))
  ++ opt_flat (Planet.tsurf p) Field_flat
  ++ opt_flat (Planet.psurf p) Field_flat
  ++ opt_flat (Planet.albedo p) Field_flat
  ++ opt_flat (Planet.emissivity p) Field_flat
  ++ opt_flat (Planet.temperature p) Field_flat
  ++ opt_flat (Planet.pressure p) Field_flat
  ++ opt_flat (Planet.molecules p)
              (fun ms => List.concat (map Field_flat (Molecules.molecules ms)))
  ++ opt_flat (Planet.aerosols p)
              (fun aes => List.concat (map Field_flat (Aerosols.aerosols aes))
                          ++ List.concat (map Field_flat (Aerosols.sizes aes))).

(** A collection that is present holds at least one Field. *)
Definition collections_nonempty (p : Planet.t) : Prop :=
  (forall ms, Planet.molecules p = Some ms -> Molecules.molecules ms <> []) /\
  (forall aes, Planet.aerosols p = Some aes ->
     Aerosols.aerosols aes ++ Aerosols.sizes aes <> []).

(** Every gas and every aerosol of the Planet has an entry in its table. *)
Definition species_known (cfg : config) (p : Planet.t) : Prop :=
  (forall ms, Planet.molecules p = Some ms ->
     Forall (fun f => exists ty, getitem (atmosphere_type_dict cfg) (name f) = Ok ty)
            (Molecules.molecules ms)) /\
  (forall aes, Planet.aerosols p = Some aes ->
     Forall (fun f => exists ty, getitem (aerosol_type_dict cfg) (name f) = Ok ty)
            (Aerosols.aerosols aes)).

(** One contributor to the buffer: the token that stands for it in the header
    and the values it puts into the buffer. *)
Definition entry : Type := (string * list float32)%type.

Definition field_entry (f : Field) : entry := (name f, Field_flat f).

Definition opt_entries {A : Type} (o : option A) (f : A -> list entry) : list entry :=
  match o with
  | Some a => f a
  | None => []
  end.

(** The contributors in payload order; the wind pair is one contributor,
    under the token ["Winds"]. *)
Definition contributing (p : Planet.t) : list entry :=
  opt_entries (Planet.wind p)
              (fun w => [("Winds", Field_flat (Winds.wind_u w) ++ Field_flat (Winds.wind_v w))])
  ++ opt_entries (Planet.tsurf p) (fun f => [field_entry f])
  ++ opt_entries (Planet.psurf p) (fun f => [field_entry f])
  ++ opt_entries (Planet.albedo p) (fun f => [field_entry f])
  ++ opt_entries (Planet.emissivity p) (fun f => [field_entry f])
  ++ opt_entries (Planet.temperature p) (fun f => [field_entry f])
  ++ opt_entries (Planet.pressure p) (fun f => [field_entry f])
  ++ opt_entries (Planet.molecules p) (fun ms => map field_entry (Molecules.molecules ms))
  ++ opt_entries (Planet.aerosols p)
                 (fun aes => map field_entry (Aerosols.aerosols aes)
                             ++ map field_entry (Aerosols.sizes aes)).

(** ** Reading the header back *)

(** [s.split(sep)] *)
Fixpoint split_on (sep : ascii) (s : string) : list string :=
  match s with
  | EmptyString => [EmptyString]
  | String c s' =>
      if Ascii.eqb c sep then EmptyString :: split_on sep s'
      else match split_on sep s' with
           | [] => [String c EmptyString]
           | x :: xs => String c x :: xs
           end
  end.

Fixpoint has_char (c : ascii) (s : string) : bool :=
  match s with
  | EmptyString => false
  | String a s' => Ascii.eqb a c || has_char c s'
  end.

Definition comma : ascii := ","%char.

(** the variable names: what follows the seven entries of the coordinate block *)
Definition parse_vars (s : string) : list string := skipn 7 (split_on comma s).


(** ** Evenly spaced points *)

Definition Qnat (n : nat) : Q := inject_Z (Z.of_nat n).

(** [n] points [start + i * step], for [i] from 0 *)
Definition even_grid (start step : Q) (n : nat) : list Q :=
  map (fun i => start + Qnat i * step) (seq 0 n).

(** ** Reading a binned spectrum back *)

(** [s[:-1]] *)
Fixpoint drop_last (s : string) : string :=
  match s with
  | EmptyString => EmptyString
  | String c EmptyString => EmptyString
  | String c s' => String c (drop_last s')
  end.

(** [col.split('[')[1][:-1]] of [read_binned_spectrum]; [None] stands for the
    [IndexError] of the subscript [[1]]. *)
Definition unit_of_column (col : string) : option string :=
  match split_on "["%char col with
  | _ :: x :: _ => Some (drop_last x)
  | _ => None
  end.

(** the header line [write_binned_spectrum] writes *)
Definition binned_header (wavelength_unit_str flux_unit_str : string) : string :=
  ("wavelength[" ++ wavelength_unit_str ++ "], flux[" ++ flux_unit_str ++ "]")%string.

(** ** The Fields of a Planet *)

Definition opt_fields {A : Type} (o : option A) (f : A -> list Field) : list Field :=
  match o with
  | Some a => f a
  | None => []
  end.

(** Every Field the Planet holds, in payload order. *)
Definition all_fields (p : Planet.t) : list Field :=
  opt_fields (Planet.wind p) (fun w => [Winds.wind_u w; Winds.wind_v w])
  ++ opt_fields (Planet.tsurf p) (fun f => [f])
  ++ opt_fields (Planet.psurf p) (fun f => [f])
  ++ opt_fields (Planet.albedo p) (fun f => [f])
  ++ opt_fields (Planet.emissivity p) (fun f => [f])
  ++ opt_fields (Planet.temperature p) (fun f => [f])
  ++ opt_fields (Planet.pressure p) (fun f => [f])
  ++ opt_fields (Planet.molecules p) Molecules.molecules
  ++ opt_fields (Planet.aerosols p) (fun aes => Aerosols.aerosols aes ++ Aerosols.sizes aes).

Definition opt_count {A : Type} (o : option A) : nat :=
  match o with
  | Some _ => 1
  | None => 0
  end.

(** the number of 2-D Fields: tsurf, psurf, albedo, emissivity *)
Definition count_2d (p : Planet.t) : nat :=
  opt_count (Planet.tsurf p) + opt_count (Planet.psurf p)
  + opt_count (Planet.albedo p) + opt_count (Planet.emissivity p).

(** the number of 3-D Fields: two for the wind, temperature, pressure, the
    molecules, the aerosol abundances and sizes *)
Definition count_3d (p : Planet.t) : nat :=
  2 * opt_count (Planet.wind p)
  + opt_count (Planet.temperature p) + opt_count (Planet.pressure p)
  + List.length (opt_fields (Planet.molecules p) Molecules.molecules)
  + List.length (opt_fields (Planet.aerosols p)
                   (fun aes => Aerosols.aerosols aes ++ Aerosols.sizes aes)).

(** two aerosol species on a (2, 2, 2) grid *)
Definition sample_aerosols : Aerosols.t :=
  Aerosols.mk
    [Field_constant "Water" "" one_f32 [2; 2; 2]%nat;
     Field_constant "WaterIce" "" one_f32 [2; 2; 2]%nat]
    [Field_constant "Water_size" "um" one_f32 [2; 2; 2]%nat;
     Field_constant "WaterIce_size" "um" one_f32 [2; 2; 2]%nat].

(** a Planet whose pressure has two axes and whose surface pressure has one *)
Definition planet_2d_pressure : Planet.t :=
  Planet.mk None None (Some (Field_constant "Psurf" "bar" one_f32 [2]%nat))
            None None None (Some (sample_psurf 2 2)) None None.

(** a Planet with a gas that the sample gas-type table does not know *)
Definition xe_planet : Planet.t :=
  bare_planet 2 2 2
    (Some (Molecules.mk [Field_constant "H2O" "" one_f32 [2; 2; 2]%nat;
                         Field_constant "Xe" "" one_f32 [2; 2; 2]%nat])).

(** the one-gas scenario with the two sample aerosols *)
Definition aerosol_planet : Planet.t :=
  Planet.mk None None (Some (sample_psurf 2 2)) None None None
            (Some (sample_pressure 2 2 2)) (Some h2o_molecules) (Some sample_aerosols).

(** ** The keys of the parameter table *)

Definition gas_keys : list string :=
  [ "ATMOSPHERE-DESCRIPTION"; "ATMOSPHERE-STRUCTURE"; "ATMOSPHERE-LAYERS";
    "ATMOSPHERE-NGAS"; "ATMOSPHERE-GAS"; "ATMOSPHERE-TYPE"; "ATMOSPHERE-ABUN";
    "ATMOSPHERE-UNIT"; "ATMOSPHERE-GCM-PARAMETERS" ]%string.

Definition aerosol_keys : list string :=
  [ "ATMOSPHERE-NAERO"; "ATMOSPHERE-AEROS"; "ATMOSPHERE-ATYPE"; "ATMOSPHERE-AABUN";
    "ATMOSPHERE-AUNIT"; "ATMOSPHERE-ASIZE"; "ATMOSPHERE-ASUNI" ]%string.

(** the names of the aerosol abundances, as [psg_params] collects them *)
Definition aerosol_names (p : Planet.t) : list string :=
  match Planet.aerosols p with
  | Some aes => map name (Aerosols.aerosols aes)
  | None => []
  end.

(** ** A sample mapping for Planet.from_dict *)

(** An interface whose values are integers: every conversion succeeds and
    every factory returns a constant Field of the shape it is asked for. *)
Definition sample_api : structure_api Z Z :=
  {| py_int := fun r => Ok (Z.to_nat r);
     py_float := fun r => Ok r;
     Quantity := fun r => Ok (r, ""%string);
     SurfaceTemperature_from_map := fun shape _ star_teff _ _ _ =>
       Ok (Field_constant "Tsurf" "K" (fst star_teff) shape);
     Pressure_from_limits := fun high _ shape =>
       Ok (Field_constant "Pressure" "bar" (fst high) shape);
     Wind_contant := fun nm value shape =>
       Ok (Field_constant nm "m s-1" (fst value) shape);
     SurfacePressure_from_pressure := fun pressure =>
       Ok (Field_constant "Psurf" "bar" one_f32 (tl (Field_shape pressure)));
     Albedo_constant := fun val shape => Ok (Field_constant "Albedo" "" (fst val) shape);
     Emissivity_constant := fun val shape =>
       Ok (Field_constant "Emissivity" "" (fst val) shape);
     Temperature_from_adiabat := fun _ tsurf pressure =>
       Ok (Field_constant "Temperature" "K" one_f32 (Field_shape pressure)) |}.

Definition sample_mapping : planet_mapping Z :=
  {| map_shape := Some [("nlayer", 2); ("nlon", 3); ("nlat", 4)]%Z;
     map_planet :=
       Some [("epsilon", Leaf 1); ("teff_star", Leaf 3000); ("albedo", Leaf 0);
             ("r_star", Leaf 1); ("r_orbit", Leaf 5); ("emissivity", Leaf 1);
             ("gamma", Leaf 1);
             ("pressure", Sub [("psurf", 1); ("ptop", 0)]);
             ("wind", Sub [("U", 0); ("V", 1)])]%Z;
     map_molecules := Some [("CO2", 4); ("H2O", 3)]%Z;
     map_aerosols :=
       Some [("Water", [("abn", 5); ("size", 7)]);
             ("WaterIce", [("abn", 1); ("size", 2)])]%Z |}.

(** the mapping without its ['aerosols'] section *)
Definition without_aerosols {raw : Type} (d : planet_mapping raw) : planet_mapping raw :=
  {| map_shape := map_shape d;
     map_planet := map_planet d;
     map_molecules := map_molecules d;
     map_aerosols := None |}.

(** ** Wavelength grids *)

(** Each point after the first is its predecessor plus the predecessor over
    the resolving power. *)
Fixpoint stepwise (ops : float_ops) (resolving_power : Z) (lams : list (fl ops)) : Prop :=
  match lams with
  | x :: ((y :: _) as rest) =>
      (exists dlam, fdiv_int ops x resolving_power = Some dlam /\ y = fadd ops x dlam) /\
      stepwise ops resolving_power rest
  | _ => True
  end.


(** * Properties *)

(** ** The result monad *)

Lemma bind_ok_inv {A B : Type} (m : result A) (k : A -> result B) (b : B) :
  bind m k = Ok b <-> exists a, m = Ok a /\ k a = Ok b.
Proof.
  destruct m as [a|e]; simpl; split.
  - intros H; exists a; auto.
  - intros (a' & Ha & Hk); inversion Ha; subst; exact Hk.
  - discriminate.
  - intros (a' & Ha & _); discriminate.
Qed.

(** Invert one [x <- m ;; k] step of a run that returned. *)
Ltac bind_inv H x Hx :=
  apply bind_ok_inv in H; destruct H as (x & Hx & H).

Lemma seq_ok_iff {B : Type} (m : result unit) (k : result B) (b : B) :
  (m ;;; k) = Ok b <-> m = Ok tt /\ k = Ok b.
Proof.
  rewrite bind_ok_inv; split.
  - intros ([] & Hm & Hk); auto.
  - intros (Hm & Hk); exists tt; auto.
Qed.

Lemma unit_result_cases (m : result unit) : m = Ok tt \/ raises m.
Proof.
  destruct m as [[]|e]; [left; reflexivity | right; exists e; reflexivity].
Qed.

Lemma raises_not_ok {A : Type} (m : result A) (a : A) : raises m -> m <> Ok a.
Proof. intros (e & ->); discriminate. Qed.

Lemma not_ok_raises (m : result unit) : m <> Ok tt -> raises m.
Proof. destruct (unit_result_cases m); tauto. Qed.

Lemma attr_ok_iff {A : Type} (o : option A) (a : A) : attr o = Ok a <-> o = Some a.
Proof. destruct o; simpl; split; congruence. Qed.

(** ** Shape checks *)

Lemma shape_eqb_eq (s1 s2 : shape_t) : shape_eqb s1 s2 = true <-> s1 = s2.
Proof.
  unfold shape_eqb; destruct (list_eq_dec Nat.eq_dec s1 s2); split; congruence.
Qed.

Lemma assert_shape_ok (s : shape_t) (f : Field) :
  Planet.assert_shape s f = Ok tt <-> Field_shape f = s.
Proof.
  unfold Planet.assert_shape, assert.
  destruct (shape_eqb (Field_shape f) s) eqn:E.
  - apply shape_eqb_eq in E; tauto.
  - split; [discriminate|]. intros H; apply shape_eqb_eq in H; congruence.
Qed.

Lemma for_each_assert_shape (s : shape_t) (fs : list Field) :
  for_each (Planet.assert_shape s) fs = Ok tt <-> Forall (fun f => Field_shape f = s) fs.
Proof.
  induction fs as [|f fs IH]; simpl.
  - split; auto.
  - rewrite seq_ok_iff, assert_shape_ok, IH. split.
    + intros [H1 H2]; constructor; assumption.
    + intros H; inversion H; subst; auto.
Qed.

Lemma when_present_ok {A : Type} (o : option A) (body : A -> result unit) :
  Planet.when_present o body = Ok tt <-> forall a, o = Some a -> body a = Ok tt.
Proof.
  destruct o as [a|]; simpl; split.
  - intros H a' [= <-]; exact H.
  - intros H; apply H; reflexivity.
  - intros _ a' [=].
  - reflexivity.
Qed.

Lemma validate_ok_iff (p : Planet.t) :
  Planet.validate p = Ok tt <->
  exists pr, Planet.pressure p = Some pr /\ shapes_agree p (Field_shape pr).
Proof.
  unfold Planet.validate.
  destruct (Planet.pressure p) as [pr|] eqn:Hpr.
  - rewrite !seq_ok_iff, !when_present_ok, bind_ok_inv.
    split.
    + intros (Hw & (ps & Hps & Hpss) & Hts & Hal & Hem & Hte & Hms & Haes).
      exists pr; split; [reflexivity|].
      apply attr_ok_iff in Hps. apply assert_shape_ok in Hpss.
      constructor.
      * intros w Ew. specialize (Hw w Ew).
        rewrite seq_ok_iff, !assert_shape_ok in Hw. exact Hw.
      * exists ps; auto.
      * intros f Ef; apply assert_shape_ok; auto.
      * intros f Ef; apply assert_shape_ok; auto.
      * intros f Ef; apply assert_shape_ok; auto.
      * intros f Ef; apply assert_shape_ok; auto.
      * intros ms Ems; apply for_each_assert_shape; auto.
      * intros aes Eaes. specialize (Haes aes Eaes).
        rewrite seq_ok_iff, !for_each_assert_shape in Haes. exact Haes.
    + intros (pr' & [= <-] & [Hw (ps & Hps & Hpss) Hts Hal Hem Hte Hms Haes]).
      repeat split.
      * intros w Ew. rewrite seq_ok_iff, !assert_shape_ok. auto.
      * exists ps. rewrite attr_ok_iff, assert_shape_ok. auto.
      * intros f Ef; apply assert_shape_ok; auto.
      * intros f Ef; apply assert_shape_ok; auto.
      * intros f Ef; apply assert_shape_ok; auto.
      * intros f Ef; apply assert_shape_ok; auto.
      * intros ms Ems; apply for_each_assert_shape; auto.
      * intros aes Eaes. rewrite seq_ok_iff, !for_each_assert_shape. auto.
  - split; [discriminate|]. intros (pr' & [=] & _).
Qed.

Lemma init_ok_iff w ts ps al em te pr ms aes (p : Planet.t) :
  Planet.__init__ w ts ps al em te pr ms aes = Ok p <->
  p = Planet.mk w ts ps al em te pr ms aes /\ valid p.
Proof.
  unfold Planet.__init__, valid. rewrite seq_ok_iff. split.
  - intros [Hv [= <-]]; auto.
  - intros [-> Hv]; auto.
Qed.

(** ** Construction fails fast *)

Lemma mismatch_not_agree (p : Planet.t) (s : shape_t) :
  shape_mismatch p s -> ~ shapes_agree p s.
Proof.
  intros M [Hw (ps & Hps & Hpss) Hts Hal Hem Hte Hms Haes].
  destruct M as [w E N|w E N|f E N|f E N|f E N|f E N|f E N|ms f E I N|aes f E I N|aes f E I N].
  - apply N, (Hw w E).
  - apply N, (Hw w E).
  - rewrite Hps in E; inversion E; subst; auto.
  - auto.
  - auto.
  - auto.
  - auto.
  - specialize (Hms ms E). rewrite Forall_forall in Hms. apply N, Hms, I.
  - destruct (Haes aes E) as [H _]. rewrite Forall_forall in H. apply N, H, I.
  - destruct (Haes aes E) as [_ H]. rewrite Forall_forall in H. apply N, H, I.
Qed.

Lemma validate_raises_iff (p : Planet.t) :
  raises (Planet.validate p) <->
  ~ exists pr, Planet.pressure p = Some pr /\ shapes_agree p (Field_shape pr).
Proof.
  rewrite <- validate_ok_iff. split.
  - intros R H. exact (raises_not_ok _ _ R H).
  - apply not_ok_raises.
Qed.

Lemma init_raises_iff w ts ps al em te pr ms aes :
  raises (Planet.__init__ w ts ps al em te pr ms aes) <->
  raises (Planet.validate (Planet.mk w ts ps al em te pr ms aes)).
Proof.
  unfold Planet.__init__.
  destruct (Planet.validate _) as [[]|e]; simpl; split; intros (e' & H);
    try discriminate; exists e'; congruence.
Qed.

(** C4: constructing a Planet raises whenever the pressure is absent, whenever
    the surface pressure is absent, and whenever a field that is present (a
    wind component, tsurf, psurf, albedo, emissivity, temperature, a molecule,
    an aerosol abundance or size) has a shape other than the 3-D shape of the
    pressure or the 2-D shape that is its tail; and a Planet that the
    constructor returns is the one built from the arguments and satisfies every
    one of these shape checks. *)
Theorem C4_construction_fails_fast w ts ps al em te pr ms aes :
  let self := Planet.mk w ts ps al em te pr ms aes in
  let built := Planet.__init__ w ts ps al em te pr ms aes in
  (pr = None -> built = Raise (TypeError "pressure must be provided!")) /\
  (ps = None -> raises built) /\
  (forall pf, pr = Some pf -> shape_mismatch self (Field_shape pf) -> raises built) /\
  (forall p, built = Ok p ->
     p = self /\ exists pf, pr = Some pf /\ shapes_agree p (Field_shape pf)).
Proof.
  intros self built. repeat split.
  - intros ->. reflexivity.
  - intros ->. apply init_raises_iff, validate_raises_iff.
    intros (pf & _ & [_ (f & Hf & _) _ _ _ _ _ _]). discriminate.
  - intros pf -> M. apply init_raises_iff, validate_raises_iff.
    intros (pf' & E & A). simpl in E. inversion E; subst pf'.
    exact (mismatch_not_agree _ _ M A).
  - apply init_ok_iff in H. tauto.
  - apply init_ok_iff in H. destruct H as [-> V].
    apply validate_ok_iff in V. exact V.
Qed.

(** Without a pressure the constructor raises [TypeError]; with a zonal wind
    of shape (3, 2, 2) on a (2, 2, 2) pressure it raises as well. *)
Lemma C4_witness :
  Planet.__init__ None None (Some (sample_psurf 2 2)) None None None None None None
  = Raise (TypeError "pressure must be provided!") /\
  raises (Planet.__init__
            (Some (Winds.mk (sample_pressure 3 2 2) (sample_pressure 2 2 2)))
            None (Some (sample_psurf 2 2)) None None None
            (Some (sample_pressure 2 2 2)) None None).
Proof.
  split.
  - exact (proj1 (C4_construction_fails_fast
                    None None (Some (sample_psurf 2 2)) None None None None None None)
                 eq_refl).
  - refine (proj1 (proj2 (proj2 (C4_construction_fails_fast _ _ _ _ _ _ _ _ _)))
              (sample_pressure 2 2 2) eq_refl _).
    apply (mismatch_wind_u _ _ (Winds.mk (sample_pressure 3 2 2) (sample_pressure 2 2 2)));
      [reflexivity|discriminate].
Defined.

(** ** The aerosol factory *)

Lemma aerosols_loop_total {raw : Type} (Quantity : raw -> result quantity)
    (shape : shape_t) (d : dict (dict raw)) :
  Forall (entry_ok Quantity) d ->
  forall st, exists st',
    Aerosols._from_dict_loop Quantity shape st d = Ok st' /\
    List.length (fst st') = (List.length (fst st) + List.length d)%nat /\
    List.length (snd st') = (List.length (snd st) + List.length d)%nat.
Proof.
  induction 1 as [|item d Hitem _ IH]; intros [aersols sizes]; simpl.
  - exists (aersols, sizes); simpl; repeat split; lia.
  - destruct item as [key value].
    destruct Hitem as (a & s & qa & qs & Ha & Hqa & Hs & Hqs); simpl in Ha, Hs.
    rewrite Ha; simpl. rewrite Hqa; simpl. rewrite Hs; simpl. rewrite Hqs; simpl.
    destruct (IH (aersols ++ [Field_constant key (snd qa) (fst qa) shape],
                  sizes ++ [Field_constant (key ++ "_size") (snd qs) (fst qs) shape]))
      as (st' & E & L1 & L2).
    exists st'; split; [exact E|].
    simpl in L1, L2. rewrite length_app in L1, L2. simpl in L1, L2. split; lia.
Qed.

(** C8: whatever the mapping and the shape, [Aerosols.from_dict] never returns
    an Aerosols collection; every value it returns is [None], and on a mapping
    whose entries the loop accepts it builds its two lists (one abundance and
    one size Field per entry) and then returns [None]. *)
Theorem C8_aerosol_factory_returns_none {raw : Type} (Quantity : raw -> result quantity)
    (d : dict (dict raw)) (shape : shape_t) :
  (forall a, Aerosols.from_dict Quantity d shape <> Ok (Some a)) /\
  (forall r, Aerosols.from_dict Quantity d shape = Ok r -> r = None) /\
  (Forall (entry_ok Quantity) d ->
     (exists st, Aerosols._from_dict_loop Quantity shape ([], []) d = Ok st /\
                 List.length (fst st) = List.length d /\
                 List.length (snd st) = List.length d) /\
     Aerosols.from_dict Quantity d shape = Ok None).
Proof.
  unfold Aerosols.from_dict, Aerosols._from_dict.
  assert (R : forall r, (Aerosols._from_dict_loop Quantity shape ([], []) d ;;; Ok None)
                        = Ok r -> r = @None Aerosols.t).
  { intros r H. apply bind_ok_inv in H. destruct H as (st & _ & H). congruence. }
  repeat split.
  - intros a H. apply R in H. discriminate.
  - exact R.
  - destruct (aerosols_loop_total Quantity shape d H ([], [])) as (st & E & L1 & L2).
    exists st. simpl in L1, L2. auto.
  - destruct (aerosols_loop_total Quantity shape d H ([], [])) as (st & E & _).
    rewrite E. reflexivity.
Qed.

(** A mapping with two well-formed aerosol entries: the factory returns [None]. *)
Lemma C8_witness :
  Aerosols.from_dict (fun v : Z => Ok (v, "um"))
    [("Water", [("abn", 5%Z); ("size", 7%Z)]); ("WaterIce", [("abn", 1%Z); ("size", 2%Z)])]
    [2; 2; 2]%nat = Ok None.
Proof.
  refine (proj2 (proj2 (proj2 (C8_aerosol_factory_returns_none _ _ _)) _)).
  repeat constructor; simpl; do 4 eexists; repeat split; reflexivity.
Defined.

(** ** The flat buffer *)

Lemma np_concatenate_ok (arrays : list (list float32)) (a : list float32) :
  np_concatenate arrays = Ok a -> a = List.concat arrays.
Proof. destruct arrays; simpl; congruence. Qed.

Lemma np_concatenate_nonempty (arrays : list (list float32)) :
  arrays <> [] -> np_concatenate arrays = Ok (List.concat arrays).
Proof. destruct arrays; simpl; congruence. Qed.

Lemma np_concatenate_ok_iff (arrays : list (list float32)) :
  (exists a, np_concatenate arrays = Ok a) <-> arrays <> [].
Proof.
  destruct arrays; simpl; split; try congruence.
  - intros (a & H); discriminate.
  - intros _; eexists; reflexivity.
Qed.

Lemma winds_flat_eq (w : Winds.t) :
  Winds.flat w = Ok (Field_flat (Winds.wind_u w) ++ Field_flat (Winds.wind_v w)).
Proof. unfold Winds.flat; simpl. rewrite app_nil_r. reflexivity. Qed.

Lemma flat_or_empty_ok {A : Type} (o : option A) (fl : A -> result (list float32))
    (f : A -> list float32) (a : list float32) :
  (forall x r, fl x = Ok r -> r = f x) ->
  Planet.flat_or_empty o fl = Ok a -> a = opt_flat o f.
Proof.
  intros Hf. destruct o as [x|]; simpl.
  - apply Hf.
  - congruence.
Qed.

Lemma aerosols_flat_ok (aes : Aerosols.t) (r : list float32) :
  Aerosols.flat aes = Ok r ->
  r = List.concat (map Field_flat (Aerosols.aerosols aes))
      ++ List.concat (map Field_flat (Aerosols.sizes aes)).
Proof.
  unfold Aerosols.flat. intros H. apply np_concatenate_ok in H.
  rewrite concat_app in H. exact H.
Qed.

(** Name the nine arrays of a run of [Planet.flat] that returned. *)
Ltac flat_inv H :=
  let a0 := fresh "a0" in let a1 := fresh "a1" in let ps := fresh "ps" in
  let a3 := fresh "a3" in let a4 := fresh "a4" in let a5 := fresh "a5" in
  let pr := fresh "pr" in let a7 := fresh "a7" in let a8 := fresh "a8" in
  let H0 := fresh "H0" in let H1 := fresh "H1" in let Hps := fresh "Hps" in
  let H3 := fresh "H3" in let H4 := fresh "H4" in let H5 := fresh "H5" in
  let Hpr := fresh "Hpr" in let H7 := fresh "H7" in let H8 := fresh "H8" in
  bind_inv H a0 H0; bind_inv H a1 H1; bind_inv H ps Hps; bind_inv H a3 H3;
  bind_inv H a4 H4; bind_inv H a5 H5; bind_inv H pr Hpr; bind_inv H a7 H7;
  bind_inv H a8 H8.

(** Whenever [flat] returns, it returns the buffer of the specification. *)
Lemma flat_ok_spec (p : Planet.t) (f : list float32) :
  Planet.flat p = Ok f -> f = spec_flat p.
Proof.
  unfold Planet.flat, spec_flat. intros H.
  flat_inv H.
  apply np_concatenate_ok in H. subst f.
  apply attr_ok_iff in Hps, Hpr. rewrite Hps, Hpr.
  apply (flat_or_empty_ok _ _
           (fun w => Field_flat (Winds.wind_u w) ++ Field_flat (Winds.wind_v w))) in H0;
    [|intros x r E; rewrite winds_flat_eq in E; congruence].
  apply (flat_or_empty_ok _ _ Field_flat) in H1; [|intros x r E; congruence].
  apply (flat_or_empty_ok _ _ Field_flat) in H3; [|intros x r E; congruence].
  apply (flat_or_empty_ok _ _ Field_flat) in H4; [|intros x r E; congruence].
  apply (flat_or_empty_ok _ _ Field_flat) in H5; [|intros x r E; congruence].
  apply (flat_or_empty_ok _ _
           (fun ms => List.concat (map Field_flat (Molecules.molecules ms)))) in H7;
    [|intros x r E; apply np_concatenate_ok in E; exact E].
  apply (flat_or_empty_ok _ _
           (fun aes => List.concat (map Field_flat (Aerosols.aerosols aes))
                       ++ List.concat (map Field_flat (Aerosols.sizes aes)))) in H8;
    [|intros x r E; apply aerosols_flat_ok in E; exact E].
  subst. simpl. rewrite app_nil_r. reflexivity.
Qed.

Lemma map_eq_nil_iff {A B : Type} (f : A -> B) (l : list A) : map f l = [] <-> l = [].
Proof. destruct l; simpl; split; congruence. Qed.

(** [flat] returns exactly on the Planets that have both required fields and
    no empty collection. *)
Lemma flat_total (p : Planet.t) :
  valid p -> collections_nonempty p -> Planet.flat p = Ok (spec_flat p).
Proof.
  intros V [Nm Na]. apply validate_ok_iff in V.
  destruct V as (pr & Hpr & [_ (ps & Hps & _) _ _ _ _ _ _]).
  assert (E : exists f, Planet.flat p = Ok f).
  { unfold Planet.flat. rewrite Hpr, Hps. simpl.
    destruct (Planet.wind p) as [w|]; simpl;
    destruct (Planet.tsurf p), (Planet.albedo p), (Planet.emissivity p),
             (Planet.temperature p); simpl;
    (destruct (Planet.molecules p) as [ms|]; simpl;
     [unfold Molecules.flat; rewrite np_concatenate_nonempty;
      [|rewrite map_eq_nil_iff; apply Nm; reflexivity]|]; simpl;
     (destruct (Planet.aerosols p) as [aes|]; simpl;
      [unfold Aerosols.flat; rewrite np_concatenate_nonempty;
       [|rewrite <- map_app, map_eq_nil_iff; apply Na; reflexivity]|]; simpl;
      eexists; reflexivity)). }
  destruct E as (f & E). rewrite E. f_equal. apply flat_ok_spec, E.
Qed.

Lemma flat_ok_nonempty (p : Planet.t) (f : list float32) :
  Planet.flat p = Ok f -> collections_nonempty p.
Proof.
  unfold Planet.flat. intros H.
  flat_inv H.
  split.
  - intros ms E. rewrite E in H7. simpl in H7. unfold Molecules.flat in H7.
    intros N. rewrite N in H7. discriminate.
  - intros aes E. rewrite E in H8. simpl in H8. unfold Aerosols.flat in H8.
    intros N. rewrite <- map_app, N in H8. discriminate.
Qed.

(** C2: on the valid Planet of shape (2, 2, 2) whose [Molecules] collection
    is present and empty, the buffer of the specification is the surface
    pressure followed by the pressure (4 + 8 = 12 elements, the empty
    collection adding none), but [Planet.flat] raises [ValueError]: the
    concatenation inside [Molecules.flat] is given no array at all. *)
Theorem C2_flat_raises_on_empty_collection :
  valid (bare_planet 2 2 2 (Some (Molecules.mk []))) /\
  spec_flat (bare_planet 2 2 2 (Some (Molecules.mk [])))
    = Field_flat (sample_psurf 2 2) ++ Field_flat (sample_pressure 2 2 2) /\
  List.length (spec_flat (bare_planet 2 2 2 (Some (Molecules.mk [])))) = 12%nat /\
  Molecules.flat (Molecules.mk []) = Raise ValueError /\
  Planet.flat (bare_planet 2 2 2 (Some (Molecules.mk []))) = Raise ValueError.
Proof. repeat split. Qed.

(** ** Splitting at commas *)

Lemma split_on_nonnil (sep : ascii) (s : string) : split_on sep s <> [].
Proof.
  destruct s as [|c s]; simpl; [discriminate|].
  destruct (Ascii.eqb c sep); [discriminate|].
  destruct (split_on sep s); discriminate.
Qed.

Lemma split_on_no_sep (sep : ascii) (s : string) :
  has_char sep s = false -> split_on sep s = [s].
Proof.
  induction s as [|c s IH]; simpl; [reflexivity|].
  intros H. apply orb_false_iff in H. destruct H as [Hc Hs].
  rewrite Hc, (IH Hs). reflexivity.
Qed.

Lemma split_on_app (sep : ascii) (a b : string) :
  has_char sep a = false ->
  split_on sep (a ++ String sep b) = a :: split_on sep b.
Proof.
  induction a as [|c a IH]; simpl.
  - intros _. rewrite Ascii.eqb_refl. reflexivity.
  - intros H. apply orb_false_iff in H. destruct H as [Hc Ha].
    rewrite Hc, (IH Ha). reflexivity.
Qed.

Lemma has_char_app (c : ascii) (a b : string) :
  has_char c (a ++ b) = has_char c a || has_char c b.
Proof.
  induction a as [|x a IH]; simpl; [reflexivity|].
  rewrite IH, orb_assoc. reflexivity.
Qed.

(** Joining with commas names that hold no comma, then splitting, gives the
    names back. *)
Lemma split_on_concat (names : list string) :
  names <> [] ->
  Forall (fun s => has_char comma s = false) names ->
  split_on comma (String.concat "," names) = names.
Proof.
  induction names as [|a names IH]; [congruence|].
  intros _ H. inversion H as [|? ? Ha Hn]; subst.
  destruct names as [|b names].
  - simpl. apply split_on_no_sep, Ha.
  - change (String.concat "," (a :: b :: names))
      with (a ++ String comma (String.concat "," (b :: names)))%string.
    rewrite (split_on_app _ _ _ Ha), IH; [reflexivity|discriminate|exact Hn].
Qed.

(** ** Decimal text *)

Lemma uint_no_comma (d : Decimal.uint) :
  has_char comma (NilEmpty.string_of_uint d) = false.
Proof. induction d; simpl; auto. Qed.

Lemma str_nat_no_comma (n : nat) : has_char comma (str_nat n) = false.
Proof. apply uint_no_comma. Qed.

Lemma str_Z_no_comma (z : Z) : has_char comma (str_Z z) = false.
Proof.
  unfold str_Z, NilZero.string_of_int, NilZero.string_of_uint.
  destruct (Z.to_int z) as [d|d]; destruct d; simpl; auto using uint_no_comma.
Qed.

Lemma format_2f_no_comma (x : pyfloat) : has_char comma (format_2f x) = false.
Proof.
  destruct x as [q|]; [|reflexivity].
  unfold format_2f, two_digits.
  rewrite !has_char_app, !str_Z_no_comma.
  destruct (Qnum q <? 0)%Z; destruct (_ <? 10)%Z; reflexivity.
Qed.




(** ** The header string *)

Lemma shape_ok_inv (p : Planet.t) (nlayer nlon nlat : nat) :
  Planet.shape p = Ok (nlayer, nlon, nlat) <->
  exists pr, Planet.pressure p = Some pr /\ Field_shape pr = [nlayer; nlon; nlat].
Proof.
  unfold Planet.shape. destruct (Planet.pressure p) as [pr|]; simpl.
  - split.
    + intros H. exists pr. split; [reflexivity|].
      destruct (Field_shape pr) as [|a [|b [|c [|d l]]]]; try discriminate.
      congruence.
    + intros (pr' & E & S). inversion E; subst pr'. rewrite S. reflexivity.
  - split; [discriminate|]. intros (pr' & E & _). discriminate.
Qed.

Lemma gcm_coords_eq (p : Planet.t) (nlayer nlon nlat : nat) :
  Planet.shape p = Ok (nlayer, nlon, nlat) ->
  Planet.gcm_coords p =
  Ok (str_nat nlon ++ "," ++ str_nat nlat ++ "," ++ str_nat nlayer
        ++ ",-180.0,-90.0," ++ format_2f (true_divide 360 nlon)
        ++ "," ++ format_2f (true_divide 180 nlat))%string.
Proof.
  intros H. unfold Planet.gcm_coords, Planet.dlon, Planet.dlat. rewrite H. reflexivity.
Qed.

Lemma opt_entries_tokens {A : Type} (vars : list string) (o : option A)
    (tok : A -> string) (f : A -> list float32) :
  Planet.append_if vars o tok = vars ++ map fst (opt_entries o (fun a => [(tok a, f a)])).
Proof. destruct o; simpl; [reflexivity|]. rewrite app_nil_r. reflexivity. Qed.

Lemma map_fst_field_entry (fs : list Field) : map fst (map field_entry fs) = map name fs.
Proof. rewrite map_map. reflexivity. Qed.

Lemma map_snd_field_entry (fs : list Field) : map snd (map field_entry fs) = map Field_flat fs.
Proof. rewrite map_map. reflexivity. Qed.

(** On a Planet that has its two required fields the names that
    [gcm_properties] collects are the tokens of the contributors. *)
Lemma gcm_vars_eq (p : Planet.t) (ps pr : Field) :
  Planet.psurf p = Some ps -> Planet.pressure p = Some pr ->
  Planet.gcm_vars p = Ok (map fst (contributing p)).
Proof.
  intros Hps Hpr. unfold Planet.gcm_vars, contributing. rewrite Hps, Hpr. simpl.
  f_equal.
  destruct (Planet.wind p), (Planet.tsurf p), (Planet.albedo p), (Planet.emissivity p),
           (Planet.temperature p); simpl;
    (destruct (Planet.molecules p) as [ms|], (Planet.aerosols p) as [aes|]; simpl;
     rewrite ?map_app, ?map_fst_field_entry, ?app_nil_r, <- ?app_assoc; reflexivity).
Qed.

Lemma opt_flat_entries {A : Type} (o : option A) (f : A -> list float32)
    (g : A -> list entry) :
  (forall a, f a = List.concat (map snd (g a))) ->
  opt_flat o f = List.concat (map snd (opt_entries o g)).
Proof. intros H. destruct o; simpl; auto. Qed.

Lemma spec_flat_contributing (p : Planet.t) :
  spec_flat p = List.concat (map snd (contributing p)).
Proof.
  unfold spec_flat, contributing.
  rewrite !map_app, !concat_app.
  repeat match goal with
         | |- _ ++ _ = _ ++ _ => f_equal
         end;
    apply opt_flat_entries; intros a; simpl;
    rewrite ?app_nil_r, ?map_app, ?concat_app, ?map_snd_field_entry; reflexivity.
Qed.

Lemma append_assoc (a b c : string) : ((a ++ b) ++ c = a ++ (b ++ c))%string.
Proof. induction a as [|x a IH]; simpl; [reflexivity|]. rewrite IH. reflexivity. Qed.

(** The coordinate block splits into its seven entries. *)
Lemma split_on_coords (a b c f1 f2 : string) :
  has_char comma a = false -> has_char comma b = false -> has_char comma c = false ->
  has_char comma f1 = false -> has_char comma f2 = false ->
  split_on comma (a ++ "," ++ b ++ "," ++ c ++ ",-180.0,-90.0," ++ f1 ++ "," ++ f2)%string
  = [a; b; c; "-180.0"%string; "-90.0"%string; f1; f2].
Proof.
  intros Ha Hb Hc H1 H2.
  change (split_on comma
            (a ++ String comma (b ++ String comma (c ++ String comma
               ("-180.0" ++ String comma ("-90.0" ++ String comma
                  (f1 ++ String comma f2))))))%string
          = [a; b; c; "-180.0"%string; "-90.0"%string; f1; f2]).
  rewrite (split_on_app _ a _ Ha), (split_on_app _ b _ Hb), (split_on_app _ c _ Hc).
  rewrite (split_on_app comma "-180.0" _ eq_refl), (split_on_app comma "-90.0" _ eq_refl).
  rewrite (split_on_app _ f1 _ H1), (split_on_no_sep _ f2 H2).
  reflexivity.
Qed.

(** The coordinate block followed by a comma and [rest] splits into its seven
    entries and the entries of [rest]. *)
Lemma split_on_coords_app (a b c f1 f2 rest : string) :
  has_char comma a = false -> has_char comma b = false -> has_char comma c = false ->
  has_char comma f1 = false -> has_char comma f2 = false ->
  split_on comma ((a ++ "," ++ b ++ "," ++ c ++ ",-180.0,-90.0," ++ f1 ++ "," ++ f2)
                    ++ "," ++ rest)%string
  = a :: b :: c :: "-180.0"%string :: "-90.0"%string :: f1 :: f2 :: split_on comma rest.
Proof.
  intros Ha Hb Hc H1 H2.
  rewrite !append_assoc.
  change (split_on comma
            (a ++ String comma (b ++ String comma (c ++ String comma
               ("-180.0" ++ String comma ("-90.0" ++ String comma
                  (f1 ++ String comma (f2 ++ String comma rest)))))))%string
          = a :: b :: c :: "-180.0"%string :: "-90.0"%string :: f1 :: f2
              :: split_on comma rest).
  rewrite (split_on_app _ a _ Ha), (split_on_app _ b _ Hb), (split_on_app _ c _ Hc).
  rewrite (split_on_app comma "-180.0" _ eq_refl), (split_on_app comma "-90.0" _ eq_refl).
  rewrite (split_on_app _ f1 _ H1), (split_on_app _ f2 _ H2).
  reflexivity.
Qed.

Lemma contributing_nonempty (p : Planet.t) (pr : Field) :
  Planet.pressure p = Some pr -> map fst (contributing p) <> [].
Proof.
  intros H N. apply map_eq_nil_iff in N. unfold contributing in N. rewrite H in N.
  do 6 (apply app_eq_nil in N; destruct N as [_ N]).
  apply app_eq_nil in N. destruct N as [N _]. discriminate.
Qed.

(** With a gas named "H2O,CO2" the header, split at its commas, gives four
    names after the coordinate block for the three contributors to the
    buffer; and with a pressure of two axes [gcm_properties] gives no string
    at all. *)
Lemma C1_counterexample :
  (valid comma_planet /\
   Planet.shape comma_planet = Ok (2, 2, 2)%nat /\
   exists header,
     Planet.gcm_properties comma_planet = Ok header /\
     parse_vars header = ["Psurf"; "Pressure"; "H2O"; "CO2"]%string /\
     map fst (contributing comma_planet) = ["Psurf"; "Pressure"; "H2O,CO2"]%string /\
     List.length (parse_vars header) <> List.length (contributing comma_planet)) /\
  (valid planet_2d_pressure /\
   Planet.gcm_properties planet_2d_pressure = Raise ValueError).
Proof.
  split.
  - split; [reflexivity|]. split; [reflexivity|].
    eexists. split; [vm_compute; reflexivity|].
    split; [vm_compute; reflexivity|]. split; [reflexivity|].
    vm_compute. discriminate.
  - split; reflexivity.
Qed.

(** C1 (amended): on a valid Planet with a 3-D pressure, [gcm_properties] is
    the coordinate block, a comma, and the comma-joined tokens of the
    contributors to the flat buffer, one token per contributor and in the
    order in which [flat] lays their values out (the wind pair under the one
    token "Winds"); and when no name holds a comma, the names that appear
    after the seven coordinate entries of the string, read by splitting it at
    its commas, are exactly those tokens: as many as there are contributors
    and in the same order. *)
Theorem C1_names_mirror_payload (p : Planet.t) (nlayer nlon nlat : nat) :
  valid p ->
  Planet.shape p = Ok (nlayer, nlon, nlat) ->
  let names := map fst (contributing p) in
  let payload := map snd (contributing p) in
  exists coords header,
    Planet.gcm_coords p = Ok coords /\
    Planet.gcm_properties p = Ok header /\
    header = (coords ++ "," ++ String.concat "," names)%string /\
    List.length (split_on comma coords) = 7%nat /\
    List.length names = List.length payload /\
    spec_flat p = List.concat payload /\
    (forall f, Planet.flat p = Ok f -> f = List.concat payload) /\
    (Forall (fun s => has_char comma s = false) names -> parse_vars header = names).
Proof.
  intros V S names payload.
  pose proof V as V'. apply validate_ok_iff in V'.
  destruct V' as (pr & Hpr & [_ (ps & Hps & _) _ _ _ _ _ _]).
  pose proof (gcm_coords_eq p nlayer nlon nlat S) as C.
  pose proof (gcm_vars_eq p ps pr Hps Hpr) as G.
  eexists; eexists. split; [exact C|].
  split; [unfold Planet.gcm_properties; rewrite C, G; reflexivity|].
  split; [reflexivity|].
  split.
  { rewrite split_on_coords by
      (first [apply str_nat_no_comma | apply format_2f_no_comma]).
    reflexivity. }
  split; [unfold names, payload; rewrite !length_map; reflexivity|].
  split; [apply spec_flat_contributing|].
  split.
  { intros f Hf. apply flat_ok_spec in Hf. rewrite Hf. apply spec_flat_contributing. }
  intros Hn. unfold parse_vars.
  rewrite split_on_coords_app by
    (first [apply str_nat_no_comma | apply format_2f_no_comma]).
  simpl skipn. apply split_on_concat; [|exact Hn].
  exact (contributing_nonempty p pr Hpr).
Qed.

(** The header of the one-gas scenario reads back as its three variable names. *)
Lemma C1_witness :
  exists header,
    Planet.gcm_properties h2o_planet = Ok header /\
    parse_vars header = ["Psurf"; "Pressure"; "H2O"]%string.
Proof.
  destruct (C1_names_mirror_payload h2o_planet 2 2 2 eq_refl eq_refl)
    as (coords & header & _ & H & _ & _ & _ & _ & _ & P).
  exists header. split; [exact H|].
  rewrite P; [reflexivity|]. repeat constructor.
Defined.



(** ** The encoded bytes *)

Lemma float32_bytes_length (native : byteorder) (x : float32) :
  List.length (float32_bytes native x) = 4%nat.
Proof. destruct native; reflexivity. Qed.

Lemma tobytes_length (native : byteorder) (a : list float32) :
  List.length (tobytes native a) = (4 * List.length a)%nat.
Proof.
  unfold tobytes. induction a as [|x a IH]; simpl flat_map; [reflexivity|].
  rewrite length_app, float32_bytes_length, IH. simpl List.length. lia.
Qed.


Lemma map_m_total {A B : Type} (f : A -> result B) (xs : list A) :
  Forall (fun x => exists y, f x = Ok y) xs ->
  exists ys, map_m f xs = Ok ys /\ List.length ys = List.length xs.
Proof.
  induction 1 as [|x xs (y & Hy) _ (ys & Hys & L)]; simpl.
  - exists []. auto.
  - rewrite Hy, Hys. simpl. exists (y :: ys). simpl. auto.
Qed.

Lemma gas_type_total (mtype : dict mtype_value) (gas : string) :
  (exists ty, getitem mtype gas = Ok ty) -> exists s, Planet.gas_type mtype gas = Ok s.
Proof.
  intros (ty & H). unfold Planet.gas_type. rewrite H. simpl.
  destruct ty; eexists; reflexivity.
Qed.

(** [psg_params] returns on a valid Planet with a 3-D pressure, a [Molecules]
    collection and known species. *)
Lemma psg_params_total (cfg : config) (p : Planet.t) (nlayer nlon nlat : nat)
    (ms : Molecules.t) :
  valid p ->
  Planet.shape p = Ok (nlayer, nlon, nlat) ->
  Planet.molecules p = Some ms ->
  species_known cfg p ->
  exists params, Planet.psg_params cfg p = Ok params.
Proof.
  intros V S M [Kg Ka].
  pose proof V as V'. apply validate_ok_iff in V'.
  destruct V' as (pr & Hpr & [_ (ps & Hps & _) _ _ _ _ _ _]).
  unfold Planet.psg_params. rewrite S, M. simpl.
  destruct (map_m_total (Planet.gas_type (atmosphere_type_dict cfg))
              (map name (Molecules.molecules ms))) as (gts & Hg & _).
  { apply Forall_map. eapply Forall_impl; [|exact (Kg ms M)].
    intros f. apply gas_type_total. }
  rewrite Hg. simpl.
  assert (Ha : exists ats,
             map_m (getitem (aerosol_type_dict cfg))
                   match Planet.aerosols p with
                   | Some aes => map name (Aerosols.aerosols aes)
                   | None => []
                   end = Ok ats).
  { destruct (Planet.aerosols p) as [aes|] eqn:E.
    - destruct (map_m_total (getitem (aerosol_type_dict cfg))
                  (map name (Aerosols.aerosols aes))) as (ats & Hat & _).
      + apply Forall_map. exact (Ka aes eq_refl).
      + exists ats. exact Hat.
    - exists []. reflexivity. }
  destruct Ha as (ats & Ha). rewrite Ha. simpl.
  unfold Planet.gcm_properties.
  rewrite (gcm_coords_eq p nlayer nlon nlat S), (gcm_vars_eq p ps pr Hps Hpr). simpl.
  eexists. reflexivity.
Qed.

(** [content] returns under the same conditions when no collection is empty. *)
Lemma content_total (native : byteorder) (cfg : config) (p : Planet.t)
    (nlayer nlon nlat : nat) (ms : Molecules.t) :
  valid p ->
  Planet.shape p = Ok (nlayer, nlon, nlat) ->
  Planet.molecules p = Some ms ->
  species_known cfg p ->
  collections_nonempty p ->
  exists c, Planet.content native cfg p = Ok c.
Proof.
  intros V S M K N.
  destruct (psg_params_total cfg p nlayer nlon nlat ms V S M K) as (params & Hp).
  unfold Planet.content. rewrite Hp, (flat_total p V N). simpl.
  eexists. reflexivity.
Qed.



(** ** The parameter table *)

Lemma psg_params_needs_molecules (cfg : config) (p : Planet.t) :
  Planet.molecules p = None -> raises (Planet.psg_params cfg p).
Proof.
  intros H. unfold Planet.psg_params.
  destruct (Planet.shape p) as [[[nlayers nlon] nlat]|e]; simpl.
  - rewrite H. simpl. exists AttributeError. reflexivity.
  - exists e. reflexivity.
Qed.

(** C10: [validate] accepts Planets whose [molecules] member is [None] (the
    bare Planet of shape (2, 2, 2) is one), and on every Planet whose
    [molecules] member is [None], valid or not, [psg_params] raises: with a
    3-D pressure the exception is the [AttributeError] of reading
    [self.molecules.molecules], and [content], which reads [psg_params]
    first, raises as well. *)
Theorem C10_psg_params_fails_without_molecules :
  (exists p, Planet.molecules p = None /\ valid p) /\
  (forall cfg p, Planet.molecules p = None -> raises (Planet.psg_params cfg p)) /\
  (forall cfg p s, valid p -> Planet.molecules p = None -> Planet.shape p = Ok s ->
     Planet.psg_params cfg p = Raise AttributeError) /\
  (forall native cfg p, Planet.molecules p = None -> raises (Planet.content native cfg p)).
Proof.
  split; [exists (bare_planet 2 2 2 None); split; reflexivity|].
  split; [exact psg_params_needs_molecules|].
  split.
  - intros cfg p s _ H S. unfold Planet.psg_params. rewrite S. simpl.
    destruct s as [[nlayers nlon] nlat]. rewrite H. reflexivity.
  - intros native cfg p H. destruct (psg_params_needs_molecules cfg p H) as (e & E).
    exists e. unfold Planet.content. rewrite E. reflexivity.
Qed.

(** The bare Planet of shape (2, 2, 2) has no molecules: [psg_params] raises. *)
Lemma C10_witness :
  Planet.psg_params sample_config (bare_planet 2 2 2 None) = Raise AttributeError.
Proof.
  exact (proj1 (proj2 (proj2 C10_psg_params_fails_without_molecules))
           sample_config (bare_planet 2 2 2 None) (2, 2, 2)%nat eq_refl eq_refl eq_refl).
Defined.

(** ** The scenario with one gas *)

(** On the scenario Planet [flat] has 20 elements, not 28. *)
Lemma C7_counterexample :
  valid h2o_planet /\
  Planet.shape h2o_planet = Ok (2, 2, 2)%nat /\
  (exists fl, Planet.flat h2o_planet = Ok fl /\ List.length fl = 20%nat) /\
  ~ (exists fl, Planet.flat h2o_planet = Ok fl /\ List.length fl = 28%nat).
Proof.
  split; [reflexivity|]. split; [reflexivity|]. split.
  - eexists. split; reflexivity.
  - intros (fl & H & L). vm_compute in H. inversion H; subst fl. discriminate L.
Qed.

(** C7 (amended): for a Planet built from a surface pressure of shape (2, 2),
    a pressure of shape (2, 2, 2), the one gas H2O on the same (2, 2, 2) grid
    and nothing else, construction succeeds, [flat] has exactly
    4 + 8 + 8 = 20 elements (surface pressure, pressure, H2O), and, with H2O
    in the gas-type table, [psg_params] reports the gas count "1" and the gas
    list "H2O". *)
Theorem C7_scenario_one_gas (cfg : config) (ps pr h2o : Field) (ty : mtype_value) :
  Field_shape ps = [2; 2]%nat -> Field_wf ps ->
  Field_shape pr = [2; 2; 2]%nat -> Field_wf pr ->
  name h2o = "H2O"%string -> Field_shape h2o = [2; 2; 2]%nat -> Field_wf h2o ->
  getitem (atmosphere_type_dict cfg) "H2O" = Ok ty ->
  exists p fl params,
    Planet.__init__ None None (Some ps) None None None (Some pr)
                    (Some (Molecules.mk [h2o])) None = Ok p /\
    Planet.flat p = Ok fl /\
    fl = Field_flat ps ++ Field_flat pr ++ Field_flat h2o /\
    List.length fl = 20%nat /\
    Planet.psg_params cfg p = Ok params /\
    getitem params "ATMOSPHERE-NGAS" = Ok "1"%string /\
    getitem params "ATMOSPHERE-GAS" = Ok "H2O"%string.
Proof.
  intros Sps Wps Spr Wpr Nh Sh Wh Hty.
  destruct ps as [nps ups [sps dps]], pr as [npr upr [spr dpr]], h2o as [nh uh [sh dh]].
  unfold Field_shape, Field_wf, ndarray_wf in *. simpl in Sps, Wps, Spr, Wpr, Nh, Sh, Wh.
  subst sps spr sh nh. simpl in Wps, Wpr, Wh.
  remember (Planet.mk None None
              (Some (mk_Field nps ups (mk_ndarray [2; 2]%nat dps))) None None None
              (Some (mk_Field npr upr (mk_ndarray [2; 2; 2]%nat dpr)))
              (Some (Molecules.mk [mk_Field "H2O" uh (mk_ndarray [2; 2; 2]%nat dh)]))
              None) as p eqn:Ep.
  assert (I : Planet.__init__ None None
                (Some (mk_Field nps ups (mk_ndarray [2; 2]%nat dps))) None None None
                (Some (mk_Field npr upr (mk_ndarray [2; 2; 2]%nat dpr)))
                (Some (Molecules.mk [mk_Field "H2O" uh (mk_ndarray [2; 2; 2]%nat dh)]))
                None = Ok p) by (rewrite Ep; reflexivity).
  assert (F : Planet.flat p = Ok (dps ++ dpr ++ dh))
    by (rewrite Ep; unfold Planet.flat; simpl; rewrite ?app_nil_r; reflexivity).
  assert (S : Planet.shape p = Ok (2, 2, 2)%nat) by (rewrite Ep; reflexivity).
  assert (M : Planet.molecules p
              = Some (Molecules.mk [mk_Field "H2O" uh (mk_ndarray [2; 2; 2]%nat dh)]))
    by (rewrite Ep; reflexivity).
  assert (A : Planet.aerosols p = None) by (rewrite Ep; reflexivity).
  assert (G : exists g, Planet.gcm_properties p = Ok g).
  { unfold Planet.gcm_properties.
    rewrite (gcm_coords_eq p 2 2 2 S).
    rewrite (gcm_vars_eq p (mk_Field nps ups (mk_ndarray [2; 2]%nat dps))
               (mk_Field npr upr (mk_ndarray [2; 2; 2]%nat dpr)))
      by (rewrite Ep; reflexivity).
    eexists. reflexivity. }
  destruct G as (g & G).
  assert (P : exists gas_type_str,
            Planet.psg_params cfg p
            = Ok [ ("ATMOSPHERE-DESCRIPTION", "Variable Star Phase CurvE (VSPEC) default GCM");
                   ("ATMOSPHERE-STRUCTURE", "Equilibrium");
                   ("ATMOSPHERE-LAYERS", "2");
                   ("ATMOSPHERE-NGAS", "1");
                   ("ATMOSPHERE-GAS", "H2O");
                   ("ATMOSPHERE-TYPE", gas_type_str);
                   ("ATMOSPHERE-ABUN", "1");
                   ("ATMOSPHERE-UNIT", "scl");
                   ("ATMOSPHERE-GCM-PARAMETERS", g) ]%string).
  { unfold Planet.psg_params. rewrite S. cbn [bind]. rewrite M. cbn [bind attr].
    rewrite A. cbn [map Molecules.molecules name map_m]. unfold Planet.gas_type. rewrite Hty.
    cbn [bind]. rewrite G. cbn [bind].
    destruct ty as [n|s]; eexists; reflexivity. }
  destruct P as (gts & P).
  exists p, (dps ++ dpr ++ dh). eexists.
  split; [exact I|]. split; [exact F|]. split; [reflexivity|].
  split; [rewrite !length_app, Wps, Wpr, Wh; reflexivity|].
  split; [exact P|]. split; reflexivity.
Qed.

(** The scenario with the sample fields, the constant abundance 1e-3 and the
    sample gas-type table. *)
Lemma C7_witness :
  exists fl params,
    Planet.flat h2o_planet = Ok fl /\ List.length fl = 20%nat /\
    Planet.psg_params sample_config h2o_planet = Ok params /\
    getitem params "ATMOSPHERE-NGAS" = Ok "1"%string /\
    getitem params "ATMOSPHERE-GAS" = Ok "H2O"%string.
Proof.
  destruct (C7_scenario_one_gas sample_config (sample_psurf 2 2) (sample_pressure 2 2 2)
              (Field_constant "H2O" "" abundance_1e_3 [2; 2; 2]%nat)
              (MInt 1) eq_refl eq_refl eq_refl eq_refl eq_refl eq_refl eq_refl eq_refl)
    as (p & fl & params & I & F & _ & L & P & N & G).
  apply init_ok_iff in I. destruct I as [-> _].
  exists fl, params. auto.
Defined.

(** ** Coordinate axes *)

Lemma Qnat_nonneg (n : nat) : 0 <= Qnat n.
Proof. unfold Qnat. rewrite <- (Zle_Qle 0). lia. Qed.

Lemma Qnat_pos (n : nat) : (1 <= n)%nat -> 0 < Qnat n.
Proof. intros H. unfold Qnat. rewrite <- (Zlt_Qlt 0). lia. Qed.

Lemma Qnat_lt (i n : nat) : (i < n)%nat -> Qnat i < Qnat n.
Proof. intros H. unfold Qnat. rewrite <- Zlt_Qlt. lia. Qed.

Lemma Qnat_le (i n : nat) : (i <= n)%nat -> Qnat i <= Qnat n.
Proof. intros H. unfold Qnat. rewrite <- Zle_Qle. lia. Qed.

Lemma Qnat_nonzero (n : nat) : (1 <= n)%nat -> ~ Qnat n == 0.
Proof. intros H E. pose proof (Qnat_pos n H) as P. rewrite E in P. discriminate P. Qed.

Lemma Forall2_map_seq (f g : nat -> Q) (l : list nat) :
  (forall i, In i l -> f i == g i) -> Forall2 Qeq (map f l) (map g l).
Proof.
  induction l as [|i l IH]; intros H; simpl; constructor.
  - apply H. left. reflexivity.
  - apply IH. intros j Hj. apply H. right. exact Hj.
Qed.

Lemma linspace_length (a b : Q) (n : nat) (e : bool) :
  List.length (linspace a b n e) = n.
Proof.
  unfold linspace.
  destruct (e && (1 <? n)%nat) eqn:E.
  - apply andb_true_iff in E. destruct E as [_ E]. apply Nat.ltb_lt in E.
    destruct n as [|m]; [lia|].
    rewrite seq_S, map_app. simpl map at 2. rewrite removelast_last.
    rewrite length_app, length_map, length_seq. simpl. lia.
  - rewrite length_map, length_seq. reflexivity.
Qed.

(** Without the end point: [n] points from [a], [(b - a) / n] apart. *)
Lemma linspace_open_grid (a b : Q) (n : nat) :
  (1 <= n)%nat ->
  Forall2 Qeq (linspace a b n false) (even_grid a ((b - a) / Qnat n) n).
Proof.
  intros H. unfold linspace, even_grid. simpl andb. cbv iota.
  destruct n as [|m]; [lia|].
  apply Forall2_map_seq. intros i _. unfold Qnat, Qdiv. ring.
Qed.

(** With the end point and at least two points: [n] points from [a],
    [(b - a) / (n - 1)] apart, the last one [b]. *)
Lemma linspace_closed_grid (a b : Q) (n : nat) :
  (2 <= n)%nat ->
  Forall2 Qeq (linspace a b n true) (even_grid a ((b - a) / Qnat (n - 1)) n) /\
  last (linspace a b n true) 0 = b.
Proof.
  intros H. unfold linspace, even_grid.
  destruct n as [|[|m]]; try lia.
  replace (true && (1 <? S (S m))%nat) with true by reflexivity.
  replace (S (S m) - 1)%nat with (S m) by lia.
  rewrite (seq_S (S m)), !map_app. simpl map at 2. simpl map at 3.
  rewrite removelast_last. split.
  - apply Forall2_app.
    + apply Forall2_map_seq. intros i _. unfold Qnat, Qdiv. ring.
    + constructor; [|constructor]. simpl Nat.add.
      unfold Qnat. field. apply (Qnat_nonzero (S m)). lia.
  - apply last_last.
Qed.

Lemma linspace_single (a b : Q) : Forall2 Qeq (linspace a b 1 true) [a].
Proof. unfold linspace. simpl. constructor; [|constructor]. unfold Qnat. ring. Qed.

Lemma even_grid_range (start step hi : Q) (n : nat) :
  0 <= step -> start + Qnat n * step <= hi ->
  Forall (fun x => start <= x /\ (0 < step -> x < hi)) (even_grid start step n).
Proof.
  intros Hs Hh. unfold even_grid. apply Forall_forall. intros x Hx.
  apply in_map_iff in Hx. destruct Hx as (i & <- & Hi).
  apply in_seq in Hi.
  pose proof (Qnat_nonneg i) as P.
  assert (L : Qnat i < Qnat n) by (apply Qnat_lt; lia).
  split.
  - assert (0 <= Qnat i * step) by (apply Qmult_le_0_compat; assumption). lra.
  - intros Hp.
    assert (Qnat i * step < Qnat n * step) by (apply Qmult_lt_compat_r; assumption).
    lra.
Qed.

Lemma Forall2_Qeq_Forall (P : Q -> Prop) (l l' : list Q) :
  (forall x y, x == y -> P y -> P x) ->
  Forall2 Qeq l l' -> Forall P l' -> Forall P l.
Proof.
  intros HP H. induction H as [|x y l l' E _ IH]; intros F; constructor;
    inversion F; subst; eauto.
Qed.

Lemma shape_axes (p : Planet.t) (nlayer nlon nlat : nat) :
  Planet.shape p = Ok (nlayer, nlon, nlat) ->
  Planet.lons p = Ok (linspace (-180) 180 nlon false) /\
  Planet.lats p = Ok (linspace (-90) 90 nlat true) /\
  Planet.dlon p = Ok (true_divide 360 nlon) /\
  Planet.dlat p = Ok (true_divide 180 nlat).
Proof.
  intros S. unfold Planet.lons, Planet.lats, Planet.dlon, Planet.dlat.
  rewrite S. repeat split.
Qed.

Lemma lons_grid (n : nat) :
  Forall2 Qeq (linspace (-180) 180 n false) (even_grid (-180) (360 / Qnat n) n).
Proof.
  destruct n as [|m]; [constructor|].
  eapply Forall2_impl; [|apply linspace_open_grid; lia].
  intros x y E. exact E.
Qed.

Lemma half_open_compat (lo hi x y : Q) :
  x == y -> lo <= y /\ y < hi -> lo <= x /\ x < hi.
Proof. intros E [H1 H2]. rewrite E. split; assumption. Qed.

Lemma closed_compat (lo hi x y : Q) :
  x == y -> lo <= y /\ y <= hi -> lo <= x /\ x <= hi.
Proof. intros E [H1 H2]. rewrite E. split; assumption. Qed.

Lemma lons_range (n : nat) :
  Forall (fun x => -180 <= x /\ x < 180) (linspace (-180) 180 n false).
Proof.
  destruct n as [|m]; [constructor|].
  assert (P : 0 < Qnat (S m)) by (apply Qnat_pos; lia).
  assert (N : ~ Qnat (S m) == 0) by (apply Qnat_nonzero; lia).
  assert (St : 0 < 360 / Qnat (S m)) by (apply Qlt_shift_div_l; [exact P|lra]).
  apply (Forall2_Qeq_Forall (fun x => -180 <= x /\ x < 180) _ _
           (half_open_compat (-180) 180) (lons_grid (S m))).
  eapply Forall_impl; [|apply (even_grid_range (-180) (360 / Qnat (S m)) 180 (S m))].
  - intros x [H1 H2]. split; [exact H1|apply H2, St].
  - apply Qlt_le_weak, St.
  - assert (E : -180 + Qnat (S m) * (360 / Qnat (S m)) == 180) by (field; exact N).
    rewrite E. apply Qle_refl.
Qed.

Lemma lats_range (n : nat) :
  Forall (fun x => -90 <= x /\ x <= 90) (linspace (-90) 90 n true).
Proof.
  destruct n as [|[|m]].
  - constructor.
  - apply (Forall2_Qeq_Forall (fun x => -90 <= x /\ x <= 90) _ _
             (closed_compat (-90) 90) (linspace_single (-90) 90)).
    constructor; [split; lra|constructor].
  - destruct (linspace_closed_grid (-90) 90 (S (S m)) ltac:(lia)) as [G _].
    replace (S (S m) - 1)%nat with (S m) in G by lia.
    assert (P : 0 < Qnat (S m)) by (apply Qnat_pos; lia).
    assert (N : ~ Qnat (S m) == 0) by (apply Qnat_nonzero; lia).
    assert (St : 0 < (90 - -90) / Qnat (S m)) by (apply Qlt_shift_div_l; [exact P|lra]).
    apply (Forall2_Qeq_Forall (fun x => -90 <= x /\ x <= 90) _ _
             (closed_compat (-90) 90) G).
    unfold even_grid. apply Forall_forall. intros x Hx.
    apply in_map_iff in Hx. destruct Hx as (i & <- & Hi). apply in_seq in Hi.
    pose proof (Qnat_nonneg i) as I0.
    assert (I1 : Qnat i <= Qnat (S m)) by (apply Qnat_le; lia).
    assert (E : Qnat (S m) * ((90 - -90) / Qnat (S m)) == 180) by (field; exact N).
    assert (0 <= Qnat i * ((90 - -90) / Qnat (S m)))
      by (apply Qmult_le_0_compat; [exact I0|apply Qlt_le_weak, St]).
    assert (Qnat i * ((90 - -90) / Qnat (S m)) <= Qnat (S m) * ((90 - -90) / Qnat (S m)))
      by (apply Qmult_le_compat_r; [exact I1|apply Qlt_le_weak, St]).
    split; lra.
Qed.

(** With a single latitude the only point of [lats] is -90: +90 is missing. *)
Lemma C5_counterexample :
  valid (bare_planet 1 1 1 None) /\
  Planet.shape (bare_planet 1 1 1 None) = Ok (1, 1, 1)%nat /\
  exists la,
    Planet.lats (bare_planet 1 1 1 None) = Ok la /\ List.length la = 1%nat /\
    Forall (fun x => x == -90) la /\
    ~ Exists (fun x => x == 90) la.
Proof.
  split; [reflexivity|]. split; [reflexivity|].
  eexists. split; [reflexivity|]. split; [reflexivity|]. split.
  - repeat constructor.
  - intros H. inversion H as [x l E|x l E]; subst.
    + discriminate E.
    + inversion E.
Qed.

(** C5 (amended): on a valid Planet of shape (n_layer, n_lon, n_lat), [lons]
    is the [n_lon] evenly spaced points -180 + i * 360 / n_lon, which start at
    -180 and all lie in the half-open span from -180 to 180; [lats] is [n_lat]
    points of the closed span from -90 to 90 that start at -90; when
    [n_lat >= 2] they are evenly spaced by 180 / (n_lat - 1) and end at +90,
    and when [n_lat = 1] the only point is -90; [dlon] is 360 / n_lon and
    [dlat] is 180 / n_lat, the floating-point quotients (infinite for a count
    of zero). *)
Theorem C5_axes (p : Planet.t) (nlayer nlon nlat : nat) :
  valid p ->
  Planet.shape p = Ok (nlayer, nlon, nlat) ->
  exists lo la,
    Planet.lons p = Ok lo /\ Planet.lats p = Ok la /\
    List.length lo = nlon /\
    Forall2 Qeq lo (even_grid (-180) (360 / Qnat nlon) nlon) /\
    Forall (fun x => -180 <= x /\ x < 180) lo /\
    List.length la = nlat /\
    Forall (fun x => -90 <= x /\ x <= 90) la /\
    ((2 <= nlat)%nat ->
       Forall2 Qeq la (even_grid (-90) (180 / Qnat (nlat - 1)) nlat) /\ last la 0 = 90) /\
    (nlat = 1%nat -> Forall2 Qeq la [-90]) /\
    Planet.dlon p = Ok (true_divide 360 nlon) /\
    Planet.dlat p = Ok (true_divide 180 nlat) /\
    ((1 <= nlon)%nat -> Planet.dlon p = Ok (Fin (360 / Qnat nlon))) /\
    ((1 <= nlat)%nat -> Planet.dlat p = Ok (Fin (180 / Qnat nlat))).
Proof.
  intros _ S. destruct (shape_axes p nlayer nlon nlat S) as (Hlo & Hla & Hdlon & Hdlat).
  exists (linspace (-180) 180 nlon false), (linspace (-90) 90 nlat true).
  split; [exact Hlo|]. split; [exact Hla|].
  split; [apply linspace_length|].
  split; [apply lons_grid|].
  split; [apply lons_range|].
  split; [apply linspace_length|].
  split; [apply lats_range|].
  split.
  { intros H. destruct (linspace_closed_grid (-90) 90 nlat H) as [G L].
    split; [|exact L].
    eapply Forall2_impl; [|exact G]. intros x y E. exact E. }
  split; [intros ->; apply linspace_single|].
  split; [exact Hdlon|]. split; [exact Hdlat|].
  split; intros H.
  - rewrite Hdlon. destruct nlon; [lia|reflexivity].
  - rewrite Hdlat. destruct nlat; [lia|reflexivity].
Qed.

(** The axes of the one-gas scenario: two longitudes, two latitudes ending at +90. *)
Lemma C5_witness :
  exists lo la,
    Planet.lons h2o_planet = Ok lo /\ Planet.lats h2o_planet = Ok la /\
    List.length lo = 2%nat /\ List.length la = 2%nat /\ last la 0 = 90.
Proof.
  destruct (C5_axes h2o_planet 2 2 2 eq_refl eq_refl)
    as (lo & la & Hlo & Hla & L1 & _ & _ & L2 & _ & G & _).
  exists lo, la. repeat split; try assumption.
  apply G. repeat constructor.
Defined.

(** At shape (2, 2, 2) [dlat] is 90 and [dlat * (n_lat - 1)] is 90, which is 90
    away from 180; and on a grid without longitudes [dlon] is infinite, so no
    product with [n_lon] is 360. *)
Lemma C6_counterexample :
  (valid h2o_planet /\
   Planet.shape h2o_planet = Ok (2, 2, 2)%nat /\
   exists d,
     Planet.dlat h2o_planet = Ok (Fin d) /\
     d * Qnat (2 - 1) == 90 /\
     ~ d * Qnat (2 - 1) == 180 /\
     Qabs (d * Qnat (2 - 1) - 180) == 90) /\
  (valid (bare_planet 1 0 1 None) /\
   Planet.shape (bare_planet 1 0 1 None) = Ok (1, 0, 1)%nat /\
   Planet.dlon (bare_planet 1 0 1 None) = Ok PInf).
Proof.
  split.
  - split; [reflexivity|]. split; [reflexivity|].
    eexists. split; [reflexivity|].
    split; [reflexivity|]. split; [discriminate|reflexivity].
  - repeat split.
Qed.

(** C6 (amended): on a valid Planet of shape (n_layer, n_lon, n_lat) with
    [n_lon >= 1] and [n_lat >= 1], [dlon * n_lon] is 360 and [dlat * n_lat] is
    180 (exactly, in exact arithmetic); [dlat * (n_lat - 1)] falls short of 180
    by one whole [dlat]. *)
Theorem C6_spacing_identities (p : Planet.t) (nlayer nlon nlat : nat) :
  valid p ->
  Planet.shape p = Ok (nlayer, nlon, nlat) ->
  (1 <= nlon)%nat -> (1 <= nlat)%nat ->
  exists d_lon d_lat,
    Planet.dlon p = Ok (Fin d_lon) /\
    Planet.dlat p = Ok (Fin d_lat) /\
    d_lon * Qnat nlon == 360 /\
    d_lat * Qnat nlat == 180 /\
    0 < d_lat /\
    d_lat * Qnat (nlat - 1) == 180 - d_lat.
Proof.
  intros _ S Hlon Hlat.
  destruct (shape_axes p nlayer nlon nlat S) as (_ & _ & Hdlon & Hdlat).
  exists (360 / Qnat nlon), (180 / Qnat nlat).
  pose proof (Qnat_nonzero nlon Hlon) as Nlon.
  pose proof (Qnat_nonzero nlat Hlat) as Nlat.
  split; [rewrite Hdlon; destruct nlon; [lia|reflexivity]|].
  split; [rewrite Hdlat; destruct nlat; [lia|reflexivity]|].
  split; [field; exact Nlon|].
  split; [field; exact Nlat|].
  split; [apply Qlt_shift_div_l; [apply Qnat_pos; exact Hlat|lra]|].
  assert (E : Qnat (nlat - 1) == Qnat nlat - 1).
  { unfold Qnat. rewrite Nat2Z.inj_sub by lia.
    unfold Z.sub. rewrite inject_Z_plus, inject_Z_opp. reflexivity. }
  rewrite E. field. exact Nlat.
Qed.

(** The spacings of the one-gas scenario. *)
Lemma C6_witness :
  exists d_lon d_lat,
    Planet.dlon h2o_planet = Ok (Fin d_lon) /\
    Planet.dlat h2o_planet = Ok (Fin d_lat) /\
    d_lon * Qnat 2 == 360 /\ d_lat * Qnat 2 == 180.
Proof.
  destruct (C6_spacing_identities h2o_planet 2 2 2 eq_refl eq_refl
              ltac:(repeat constructor) ltac:(repeat constructor))
    as (a & b & Ha & Hb & Ea & Eb & _).
  exists a, b. auto.
Defined.

(** * Further properties of the code *)

(** ** Results *)

Lemma result_cases {A : Type} (m : result A) : (exists a, m = Ok a) \/ raises m.
Proof. destruct m as [a|e]; [left; exists a|right; exists e]; reflexivity. Qed.

Lemma map_m_ok_inv {A B : Type} (f : A -> result B) (xs : list A) (ys : list B) :
  map_m f xs = Ok ys -> Forall2 (fun x y => f x = Ok y) xs ys.
Proof.
  revert ys. induction xs as [|x xs IH]; simpl; intros ys H.
  - inversion H. constructor.
  - bind_inv H y Hy. bind_inv H ys' Hys. inversion H; subst.
    constructor; [exact Hy|apply IH, Hys].
Qed.

Lemma map_m_raises_iff {A B : Type} (f : A -> result B) (xs : list A) :
  raises (map_m f xs) <-> Exists (fun x => raises (f x)) xs.
Proof.
  induction xs as [|x xs IH]; simpl.
  - split; [intros (e & H); discriminate|intros H; inversion H].
  - destruct (f x) as [y|e] eqn:E; simpl.
    + destruct (map_m f xs) as [ys|e'] eqn:E'; simpl.
      * split; [intros (e & H); discriminate|].
        intros H. inversion H as [? ? (e & He)|? ? Hx]; subst.
        -- congruence.
        -- apply IH in Hx. destruct Hx as (e & He). discriminate.
      * split; [|intros _; exists e'; reflexivity].
        intros _. right. apply IH. exists e'. reflexivity.
    + split; [|intros _; exists e; reflexivity].
      intros _. left. rewrite E. exists e. reflexivity.
Qed.

Lemma constant_wf (nm un : string) (v : float32) (shape : shape_t) :
  Field_wf (Field_constant nm un v shape).
Proof. unfold Field_wf, ndarray_wf. simpl. apply repeat_length. Qed.

(** ** The molecule factory *)

(** What a returned molecule collection holds. *)
Lemma molecules_from_dict_inv {raw : Type} (Quantity : raw -> result quantity)
    (d : dict raw) (shape : shape_t) (ms : Molecules.t) :
  Molecules.from_dict Quantity d shape = Ok ms ->
  map name (Molecules.molecules ms) = map fst d /\
  List.length (Molecules.molecules ms) = List.length d /\
  Forall (fun f => Field_shape f = shape /\ Field_wf f) (Molecules.molecules ms) /\
  Forall2 (fun kv f => exists q, Quantity (snd kv) = Ok q /\
                                 unit_tag f = snd q /\
                                 Field_flat f = repeat (fst q) (size_of shape))
          d (Molecules.molecules ms).
Proof.
  unfold Molecules.from_dict, Molecules._from_dict. intros H.
  bind_inv H fs Hfs. inversion H; subst ms. simpl. clear H.
  apply map_m_ok_inv in Hfs.
  induction Hfs as [|[k v] f d fs Hf _ IH]; simpl.
  - repeat split; constructor.
  - destruct IH as (I1 & I2 & I3 & I4).
    bind_inv Hf q Hq. inversion Hf; subst f. simpl.
    repeat split.
    + f_equal. exact I1.
    + f_equal. exact I2.
    + constructor; [split; [reflexivity|apply constant_wf]|exact I3].
    + constructor; [|exact I4]. exists q. simpl. auto.
Qed.

(** X1: when [Molecules.from_dict] returns, the collection has one Field per
    entry of the mapping, in the mapping's order and under the entry's key;
    each has the requested shape, holds as many elements as the shape has, and
    every element is the number [u.Quantity] read from the entry. *)
Theorem X1_molecules_from_dict_order {raw : Type} (Quantity : raw -> result quantity)
    (d : dict raw) (shape : shape_t) (ms : Molecules.t) :
  Molecules.from_dict Quantity d shape = Ok ms ->
  map name (Molecules.molecules ms) = map fst d /\
  List.length (Molecules.molecules ms) = List.length d /\
  Forall (fun f => Field_shape f = shape /\ Field_wf f) (Molecules.molecules ms) /\
  Forall2 (fun kv f => exists q, Quantity (snd kv) = Ok q /\
                                 unit_tag f = snd q /\
                                 Field_flat f = repeat (fst q) (size_of shape))
          d (Molecules.molecules ms).
Proof. exact (molecules_from_dict_inv Quantity d shape ms). Qed.

Lemma X1_witness :
  exists ms,
    Molecules.from_dict (fun v : Z => Ok (v, ""%string))
      [("H2O"%string, 5%Z); ("CO2"%string, 7%Z)] [2; 2; 2]%nat = Ok ms /\
    map name (Molecules.molecules ms) = ["H2O"; "CO2"]%string.
Proof.
  eexists. split; [reflexivity|].
  exact (proj1 (X1_molecules_from_dict_order (fun v : Z => Ok (v, ""%string))
                  [("H2O"%string, 5%Z); ("CO2"%string, 7%Z)] [2; 2; 2]%nat _ eq_refl)).
Defined.

(** X2: [Molecules.from_dict] raises exactly when [u.Quantity] raises on some
    value of the mapping; on the empty mapping it returns the empty
    collection, whose [flat] raises [ValueError]. *)
Theorem X2_molecules_from_dict_raises {raw : Type} (Quantity : raw -> result quantity)
    (d : dict raw) (shape : shape_t) :
  (raises (Molecules.from_dict Quantity d shape) <->
   Exists (fun kv => raises (Quantity (snd kv))) d) /\
  Molecules.from_dict Quantity [] shape = Ok (Molecules.mk []) /\
  Molecules.flat (Molecules.mk []) = Raise ValueError.
Proof.
  split; [|split; reflexivity].
  unfold Molecules.from_dict, Molecules._from_dict.
  set (g := fun kv : string * raw =>
              bind (Quantity (snd kv))
                   (fun value => Ok (Field_constant (fst kv) (snd value) (fst value) shape))).
  assert (E : map_m (fun '(key, val) =>
                       value <- Quantity val ;;
                       Ok (Field_constant key (snd value) (fst value) shape)) d
              = map_m g d).
  { induction d as [|[k v] d IH]; simpl; [reflexivity|]. rewrite IH. reflexivity. }
  rewrite E. clear E.
  assert (G : forall kv, raises (g kv) <-> raises (Quantity (snd kv))).
  { intros kv. unfold g. destruct (Quantity (snd kv)) as [q|e]; simpl.
    - split; intros (e & H); discriminate.
    - split; intros _; exists e; reflexivity. }
  transitivity (raises (map_m g d)).
  - destruct (map_m g d) as [fs|e]; simpl.
    + split; intros (e & H); discriminate.
    + split; intros _; exists e; reflexivity.
  - rewrite map_m_raises_iff. split; apply Exists_impl; intros kv; apply G.
Qed.

(** ** The size and layout of the payload *)

Lemma opt_flat_fields {A : Type} (o : option A) (f : A -> list float32)
    (g : A -> list Field) :
  (forall a, f a = List.concat (map Field_flat (g a))) ->
  opt_flat o f = List.concat (map Field_flat (opt_fields o g)).
Proof. intros H. destruct o; simpl; auto. Qed.

Lemma spec_flat_all_fields (p : Planet.t) :
  spec_flat p = List.concat (map Field_flat (all_fields p)).
Proof.
  unfold spec_flat, all_fields.
  rewrite !map_app, !concat_app.
  repeat match goal with
         | |- _ ++ _ = _ ++ _ => f_equal
         end;
    apply opt_flat_fields; intros a; simpl;
    rewrite ?app_nil_r, ?map_app, ?concat_app; reflexivity.
Qed.

Lemma concat_flat_length (s : shape_t) (fs : list Field) :
  Forall (fun f => Field_shape f = s) fs -> Forall Field_wf fs ->
  List.length (List.concat (map Field_flat fs)) = (List.length fs * size_of s)%nat.
Proof.
  induction fs as [|f fs IH]; intros Hs Hw; simpl; [reflexivity|].
  inversion Hs; subst. inversion Hw; subst.
  rewrite length_app, IH by assumption.
  unfold Field_wf, ndarray_wf, Field_shape, Field_flat in *. congruence.
Qed.

Lemma Forall_app_inv {A : Type} (P : A -> Prop) (l1 l2 : list A) :
  Forall P (l1 ++ l2) -> Forall P l1 /\ Forall P l2.
Proof. apply Forall_app. Qed.

Lemma opt_single_length (s : shape_t) (o : option Field) :
  (forall f, o = Some f -> Field_shape f = s) ->
  Forall Field_wf (opt_fields o (fun f => [f])) ->
  List.length (opt_flat o Field_flat) = (opt_count o * size_of s)%nat.
Proof.
  intros Hs Hw. destruct o as [f|]; simpl; [|reflexivity].
  inversion Hw; subst.
  unfold Field_wf, ndarray_wf, Field_shape, Field_flat in *.
  rewrite <- (Hs f eq_refl). lia.
Qed.

(** X3: on a valid Planet of shape (n_layer, n_lon, n_lat) whose Fields each
    hold as many values as their shape has, the buffer [flat] returns has
    [n_lon * n_lat] elements for each 2-D Field present (tsurf, psurf, albedo,
    emissivity) and [n_layer * n_lon * n_lat] for each 3-D Field present (two
    for the wind, temperature, pressure, every molecule, every aerosol
    abundance and size). *)
Theorem X3_flat_length (p : Planet.t) (nlayer nlon nlat : nat) (buf : list float32) :
  valid p ->
  Planet.shape p = Ok (nlayer, nlon, nlat) ->
  Forall Field_wf (all_fields p) ->
  Planet.flat p = Ok buf ->
  List.length buf
  = (count_2d p * (nlon * nlat) + count_3d p * (nlayer * nlon * nlat))%nat.
Proof.
  intros V S W F.
  apply flat_ok_spec in F. subst buf.
  apply validate_ok_iff in V. destruct V as (pr & Hpr & A).
  apply shape_ok_inv in S. destruct S as (pr' & Hpr' & S3).
  rewrite Hpr in Hpr'. inversion Hpr'; subst pr'. rewrite S3 in A.
  destruct A as [Aw (ps & Hps & Aps) Ats Aal Aem Ate Ams Aae]. simpl tl in *.
  unfold all_fields in W.
  apply Forall_app_inv in W. destruct W as [Ww W].
  apply Forall_app_inv in W. destruct W as [Wts W].
  apply Forall_app_inv in W. destruct W as [Wps W].
  apply Forall_app_inv in W. destruct W as [Wal W].
  apply Forall_app_inv in W. destruct W as [Wem W].
  apply Forall_app_inv in W. destruct W as [Wte W].
  apply Forall_app_inv in W. destruct W as [Wpr W].
  apply Forall_app_inv in W. destruct W as [Wms Wae].
  unfold spec_flat, count_2d, count_3d. rewrite !length_app.
  rewrite (opt_single_length [nlon; nlat] (Planet.tsurf p)) by assumption.
  rewrite (opt_single_length [nlon; nlat] (Planet.psurf p))
    by (trivial; intros f E; rewrite Hps in E; inversion E; subst; exact Aps).
  rewrite (opt_single_length [nlon; nlat] (Planet.albedo p)) by assumption.
  rewrite (opt_single_length [nlon; nlat] (Planet.emissivity p)) by assumption.
  rewrite (opt_single_length [nlayer; nlon; nlat] (Planet.temperature p)) by assumption.
  rewrite (opt_single_length [nlayer; nlon; nlat] (Planet.pressure p))
    by (trivial; intros f E; rewrite Hpr in E; inversion E; subst; exact S3).
  assert (Lw : List.length
                 (opt_flat (Planet.wind p)
                    (fun w => Field_flat (Winds.wind_u w) ++ Field_flat (Winds.wind_v w)))
               = (2 * opt_count (Planet.wind p) * size_of [nlayer; nlon; nlat])%nat).
  { destruct (Planet.wind p) as [w|]; simpl; [|reflexivity].
    destruct (Aw w eq_refl) as [Su Sv].
    simpl in Ww. inversion Ww as [|? ? Wu W']; subst. inversion W' as [|? ? Wv _]; subst.
    rewrite length_app.
    unfold Field_wf, ndarray_wf, Field_shape, Field_flat in *.
    rewrite Wu, Wv, Su, Sv. simpl. lia. }
  assert (Lm : List.length
                 (opt_flat (Planet.molecules p)
                    (fun ms => List.concat (map Field_flat (Molecules.molecules ms))))
               = (List.length (opt_fields (Planet.molecules p) Molecules.molecules)
                  * size_of [nlayer; nlon; nlat])%nat).
  { destruct (Planet.molecules p) as [ms|]; simpl; [|reflexivity].
    apply (concat_flat_length [nlayer; nlon; nlat]); [apply Ams; reflexivity|exact Wms]. }
  assert (La : List.length
                 (opt_flat (Planet.aerosols p)
                    (fun aes => List.concat (map Field_flat (Aerosols.aerosols aes))
                                ++ List.concat (map Field_flat (Aerosols.sizes aes))))
               = (List.length (opt_fields (Planet.aerosols p)
                                 (fun aes => Aerosols.aerosols aes ++ Aerosols.sizes aes))
                  * size_of [nlayer; nlon; nlat])%nat).
  { destruct (Planet.aerosols p) as [aes|]; simpl; [|reflexivity].
    destruct (Aae aes eq_refl) as [Sa Ss].
    rewrite <- concat_app, <- map_app.
    apply (concat_flat_length [nlayer; nlon; nlat]);
      [apply Forall_app; split; assumption|exact Wae]. }
  rewrite Lw, Lm, La. simpl size_of. nia.
Qed.

Lemma X3_witness :
  exists buf,
    Planet.flat h2o_planet = Ok buf /\
    List.length buf = (1 * (2 * 2) + 2 * (2 * 2 * 2))%nat.
Proof.
  exists (spec_flat h2o_planet). split; [reflexivity|].
  refine (X3_flat_length h2o_planet 2 2 2 _ eq_refl eq_refl _ eq_refl).
  repeat constructor.
Defined.

Lemma tobytes_concat (native : byteorder) (l : list (list float32)) :
  tobytes native (List.concat l) = flat_map (tobytes native) l.
Proof.
  unfold tobytes. induction l as [|a l IH]; simpl; [reflexivity|].
  rewrite flat_map_app, IH. reflexivity.
Qed.

(** X4: whenever [psg_params] and [flat] return, the binary section of
    [content], between the two delimiters, is the Planet's Fields one after
    the other in payload order, each as the four bytes of each of its values:
    a Field's block starts where the blocks of the Fields before it end. *)
Theorem X4_payload_blocks (native : byteorder) (cfg : config) (p : Planet.t)
    (params : dict string) (buf : list float32) :
  Planet.psg_params cfg p = Ok params ->
  Planet.flat p = Ok buf ->
  Planet.content native cfg p
  = Ok (list_byte_of_string (Planet.config_text params)
          ++ Planet.open_delim
          ++ flat_map (fun f => tobytes native (Field_flat f)) (all_fields p)
          ++ Planet.close_delim) /\
  Forall2 (fun f block => List.length block = (4 * List.length (Field_flat f))%nat)
          (all_fields p)
          (map (fun f => tobytes native (Field_flat f)) (all_fields p)).
Proof.
  intros Hp Hf. split.
  - unfold Planet.content. rewrite Hp, Hf. simpl bind.
    apply flat_ok_spec in Hf. rewrite Hf, spec_flat_all_fields, tobytes_concat.
    rewrite flat_map_concat_map, map_map. rewrite <- flat_map_concat_map. reflexivity.
  - induction (all_fields p) as [|f fs IH]; simpl; constructor; [|exact IH].
    apply tobytes_length.
Qed.

Lemma X4_witness :
  Planet.content LittleEndian sample_config h2o_planet
  = Ok (list_byte_of_string
          (Planet.config_text
             [("ATMOSPHERE-DESCRIPTION", "Variable Star Phase CurvE (VSPEC) default GCM");
              ("ATMOSPHERE-STRUCTURE", "Equilibrium");
              ("ATMOSPHERE-LAYERS", "2"); ("ATMOSPHERE-NGAS", "1");
              ("ATMOSPHERE-GAS", "H2O"); ("ATMOSPHERE-TYPE", "HIT[1]");
              ("ATMOSPHERE-ABUN", "1"); ("ATMOSPHERE-UNIT", "scl");
              ("ATMOSPHERE-GCM-PARAMETERS",
               "2,2,2,-180.0,-90.0,180.00,90.00,Psurf,Pressure,H2O")]%string)
          ++ Planet.open_delim
          ++ flat_map (fun f => tobytes LittleEndian (Field_flat f)) (all_fields h2o_planet)
          ++ Planet.close_delim).
Proof.
  exact (proj1 (X4_payload_blocks LittleEndian sample_config h2o_planet _ _ eq_refl eq_refl)).
Defined.

(** ** The aerosol collection *)

(** X5: [Aerosols.flat] returns exactly when the collection holds some Field;
    what it returns is every abundance in order followed by every size in
    order, and when every Field has the shape [s] and as many values as [s]
    has, its length is the number of Fields times the size of [s]. *)
Theorem X5_aerosols_flat (aes : Aerosols.t) :
  ((exists a, Aerosols.flat aes = Ok a) <->
   Aerosols.aerosols aes ++ Aerosols.sizes aes <> []) /\
  (Aerosols.aerosols aes ++ Aerosols.sizes aes = [] ->
   Aerosols.flat aes = Raise ValueError) /\
  (forall a, Aerosols.flat aes = Ok a ->
     a = List.concat (map Field_flat (Aerosols.aerosols aes))
         ++ List.concat (map Field_flat (Aerosols.sizes aes))) /\
  (forall a s, Aerosols.flat aes = Ok a ->
     Forall (fun f => Field_shape f = s) (Aerosols.aerosols aes ++ Aerosols.sizes aes) ->
     Forall Field_wf (Aerosols.aerosols aes ++ Aerosols.sizes aes) ->
     List.length a
     = ((List.length (Aerosols.aerosols aes) + List.length (Aerosols.sizes aes))
        * size_of s)%nat).
Proof.
  repeat split.
  - intros E. unfold Aerosols.flat in E. rewrite <- map_app in E.
    apply np_concatenate_ok_iff in E. rewrite map_eq_nil_iff in E. exact E.
  - intros N. unfold Aerosols.flat. rewrite <- map_app.
    apply np_concatenate_ok_iff. rewrite map_eq_nil_iff. exact N.
  - intros N. unfold Aerosols.flat. rewrite <- map_app, N. reflexivity.
  - apply aerosols_flat_ok.
  - intros a s H Hs Hw. apply aerosols_flat_ok in H. subst a.
    rewrite <- concat_app, <- map_app, <- length_app.
    apply concat_flat_length; assumption.
Qed.

Lemma X5_witness :
  exists a,
    Aerosols.flat sample_aerosols = Ok a /\ List.length a = ((2 + 2) * 8)%nat.
Proof.
  exists (repeat one_f32 32). split; [reflexivity|].
  refine (proj2 (proj2 (proj2 (X5_aerosols_flat sample_aerosols)))
            (repeat one_f32 32) [2; 2; 2]%nat eq_refl _ _);
    repeat constructor.
Defined.

(** ** A pressure that is not 3-D *)

(** X6: [validate] does not look at the number of axes of the pressure: on a
    valid Planet whose pressure has other than three axes, [shape] raises
    [ValueError] (the tuple does not unpack into three names), and with it the
    axes, the spacings, the header string, the parameter table and the encoded
    bytes. *)
Theorem X6_pressure_not_3d (native : byteorder) (cfg : config) (p : Planet.t) (pr : Field) :
  valid p ->
  Planet.pressure p = Some pr ->
  List.length (Field_shape pr) <> 3%nat ->
  Planet.shape p = Raise ValueError /\
  Planet.lons p = Raise ValueError /\
  Planet.lats p = Raise ValueError /\
  Planet.dlon p = Raise ValueError /\
  Planet.dlat p = Raise ValueError /\
  Planet.gcm_properties p = Raise ValueError /\
  Planet.psg_params cfg p = Raise ValueError /\
  Planet.content native cfg p = Raise ValueError.
Proof.
  intros _ Hpr N.
  assert (S : Planet.shape p = Raise ValueError).
  { unfold Planet.shape. rewrite Hpr. simpl.
    destruct (Field_shape pr) as [|a [|b [|c [|d l]]]]; try reflexivity.
    simpl in N. congruence. }
  assert (P : Planet.psg_params cfg p = Raise ValueError)
    by (unfold Planet.psg_params; rewrite S; reflexivity).
  unfold Planet.lons, Planet.lats, Planet.dlon, Planet.dlat, Planet.gcm_properties,
    Planet.gcm_coords, Planet.content.
  rewrite P, S. repeat split.
Qed.

(** A 2-D pressure of shape (2, 2) with a 1-D surface pressure of shape (2,)
    passes [validate]. *)
Lemma X6_witness :
  valid planet_2d_pressure /\
  Planet.gcm_properties planet_2d_pressure = Raise ValueError.
Proof.
  split; [reflexivity|].
  refine (proj1 (proj2 (proj2 (proj2 (proj2 (proj2
            (X6_pressure_not_3d LittleEndian sample_config planet_2d_pressure
               (sample_psurf 2 2) eq_refl eq_refl _))))))).
  discriminate.
Defined.

(** ** The parameter table *)

Lemma getitem_not_in {V : Type} (d : dict V) (key : string) :
  ~ In key (map fst d) -> getitem d key = Raise (KeyError key).
Proof.
  induction d as [|[k v] d IH]; simpl; intros N; [reflexivity|].
  destruct (String.eqb k key) eqn:E.
  - apply String.eqb_eq in E. tauto.
  - apply IH. tauto.
Qed.

Lemma getitem_in {V : Type} (d : dict V) (key : string) :
  In key (map fst d) -> exists v, getitem d key = Ok v /\ In (key, v) d.
Proof.
  induction d as [|[k v] d IH]; simpl; intros H; [contradiction|].
  destruct (String.eqb k key) eqn:E.
  - apply String.eqb_eq in E. subst. exists v. auto.
  - destruct H as [H|H]; [subst; rewrite String.eqb_refl in E; discriminate|].
    destruct (IH H) as (v' & G & I). exists v'. auto.
Qed.

Lemma map_m_first_raise {A B : Type} (f : A -> result B) (xs : list A) (x : A)
    (rest : list A) (e : exn) :
  Forall (fun a => exists b, f a = Ok b) xs ->
  f x = Raise e ->
  map_m f (xs ++ x :: rest) = Raise e.
Proof.
  intros H E. induction H as [|a xs (b & Hb) _ IH]; simpl.
  - rewrite E. reflexivity.
  - rewrite Hb, IH. reflexivity.
Qed.

Lemma keys_nodup : NoDup (gas_keys ++ aerosol_keys).
Proof.
  unfold gas_keys, aerosol_keys. simpl.
  repeat (constructor; [simpl; intuition discriminate|]). constructor.
Qed.

(** What a returned parameter table holds. *)
Lemma psg_params_inv (cfg : config) (p : Planet.t) (params : dict string) :
  Planet.psg_params cfg p = Ok params ->
  exists ms nlayer nlon nlat,
    Planet.molecules p = Some ms /\
    Planet.shape p = Ok (nlayer, nlon, nlat) /\
    map fst params
    = gas_keys ++ (match aerosol_names p with [] => [] | _ :: _ => aerosol_keys end) /\
    NoDup (map fst params) /\
    getitem params "ATMOSPHERE-LAYERS" = Ok (str_nat nlayer) /\
    getitem params "ATMOSPHERE-NGAS"
      = Ok (str_nat (List.length (Molecules.molecules ms))) /\
    getitem params "ATMOSPHERE-GAS"
      = Ok (String.concat "," (map name (Molecules.molecules ms))) /\
    getitem params "ATMOSPHERE-ABUN"
      = Ok (String.concat "," (repeat "1"%string (List.length (Molecules.molecules ms)))) /\
    getitem params "ATMOSPHERE-UNIT"
      = Ok (String.concat "," (repeat "scl"%string (List.length (Molecules.molecules ms)))) /\
    Planet.gcm_properties p = getitem params "ATMOSPHERE-GCM-PARAMETERS" /\
    (aerosol_names p <> [] ->
     getitem params "ATMOSPHERE-NAERO" = Ok (str_nat (List.length (aerosol_names p))) /\
     getitem params "ATMOSPHERE-AEROS" = Ok (String.concat "," (aerosol_names p))).
Proof.
  unfold Planet.psg_params. intros H.
  bind_inv H s Hs. destruct s as [[nlayer nlon] nlat].
  bind_inv H ms Hms. apply attr_ok_iff in Hms.
  bind_inv H gts Hg. bind_inv H ats Ha. bind_inv H gcm Hgcm.
  exists ms, nlayer, nlon, nlat.
  split; [exact Hms|]. split; [exact Hs|].
  unfold aerosol_names. rewrite length_map in H.
  destruct (match Planet.aerosols p with
            | Some aes => map name (Aerosols.aerosols aes)
            | None => []
            end) as [|a names].
  - simpl in H. inversion H; subst params. clear H.
    split; [reflexivity|].
    split; [apply (NoDup_app_remove_r _ _ keys_nodup)|].
    rewrite Hgcm. repeat split; try reflexivity; congruence.
  - simpl in H. inversion H; subst params. clear H.
    split; [reflexivity|].
    split; [exact keys_nodup|].
    rewrite Hgcm. repeat split; reflexivity.
Qed.

(** X7: the table [psg_params] returns has the nine gas keys in their fixed
    order, followed by the seven aerosol keys exactly when the Planet has at
    least one aerosol abundance, and no key twice; the layer count is the
    first axis of the pressure, the gas count and the gas list are the number
    and the names of the molecules in collection order, with one "1" and one
    "scl" per gas, and the GCM entry is the header string of
    [gcm_properties]. *)
Theorem X7_psg_params_layout (cfg : config) (p : Planet.t) (params : dict string) :
  Planet.psg_params cfg p = Ok params ->
  exists ms nlayer nlon nlat,
    Planet.molecules p = Some ms /\
    Planet.shape p = Ok (nlayer, nlon, nlat) /\
    map fst params
    = gas_keys ++ (match aerosol_names p with [] => [] | _ :: _ => aerosol_keys end) /\
    NoDup (map fst params) /\
    getitem params "ATMOSPHERE-LAYERS" = Ok (str_nat nlayer) /\
    getitem params "ATMOSPHERE-NGAS"
      = Ok (str_nat (List.length (Molecules.molecules ms))) /\
    getitem params "ATMOSPHERE-GAS"
      = Ok (String.concat "," (map name (Molecules.molecules ms))) /\
    getitem params "ATMOSPHERE-ABUN"
      = Ok (String.concat "," (repeat "1"%string (List.length (Molecules.molecules ms)))) /\
    getitem params "ATMOSPHERE-UNIT"
      = Ok (String.concat "," (repeat "scl"%string (List.length (Molecules.molecules ms)))) /\
    Planet.gcm_properties p = getitem params "ATMOSPHERE-GCM-PARAMETERS" /\
    (aerosol_names p <> [] ->
     getitem params "ATMOSPHERE-NAERO" = Ok (str_nat (List.length (aerosol_names p))) /\
     getitem params "ATMOSPHERE-AEROS" = Ok (String.concat "," (aerosol_names p))).
Proof. exact (psg_params_inv cfg p params). Qed.

Lemma X7_witness :
  exists params,
    Planet.psg_params sample_config h2o_planet = Ok params /\
    map fst params = gas_keys /\
    getitem params "ATMOSPHERE-GAS" = Ok "H2O"%string.
Proof.
  eexists. split; [reflexivity|].
  destruct (X7_psg_params_layout sample_config h2o_planet _ eq_refl)
    as (ms & nlayer & nlon & nlat & M & _ & K & _ & _ & _ & G & _).
  inversion M; subst ms. rewrite app_nil_r in K. split; [exact K|exact G].
Defined.

(** X8: with a 3-D pressure and a [Molecules] collection, a gas whose name is
    not a key of the gas-type table makes [psg_params] raise [KeyError] with
    that name, the first such gas in collection order. *)
Theorem X8_unknown_gas (cfg : config) (p : Planet.t) (s : nat * nat * nat)
    (ms : Molecules.t) (known rest : list string) (gas : string) :
  Planet.shape p = Ok s ->
  Planet.molecules p = Some ms ->
  map name (Molecules.molecules ms) = known ++ gas :: rest ->
  Forall (fun g => In g (map fst (atmosphere_type_dict cfg))) known ->
  ~ In gas (map fst (atmosphere_type_dict cfg)) ->
  Planet.psg_params cfg p = Raise (KeyError gas).
Proof.
  intros S M N K U. unfold Planet.psg_params.
  rewrite S. destruct s as [[nlayer nlon] nlat]. simpl. rewrite M. simpl.
  rewrite N, (map_m_first_raise _ known gas rest (KeyError gas)); [reflexivity| |].
  - eapply Forall_impl; [|exact K]. intros g Hg.
    apply gas_type_total. destruct (getitem_in _ _ Hg) as (v & G & _). eauto.
  - unfold Planet.gas_type. rewrite (getitem_not_in _ _ U). reflexivity.
Qed.

Lemma X8_witness :
  Planet.psg_params sample_config xe_planet = Raise (KeyError "Xe").
Proof.
  refine (X8_unknown_gas sample_config xe_planet (2, 2, 2)%nat
            (Molecules.mk [Field_constant "H2O" "" one_f32 [2; 2; 2]%nat;
                           Field_constant "Xe" "" one_f32 [2; 2; 2]%nat])
            ["H2O"%string] [] "Xe" eq_refl eq_refl eq_refl _ _).
  - repeat constructor.
  - simpl. intuition discriminate.
Defined.

(** X9: with a 3-D pressure and every gas in the gas-type table, an aerosol
    whose name is not a key of the aerosol-type table makes [psg_params] raise
    [KeyError] with that name, the first such aerosol in collection order. *)
Theorem X9_unknown_aerosol (cfg : config) (p : Planet.t) (s : nat * nat * nat)
    (ms : Molecules.t) (known rest : list string) (aerosol : string) :
  Planet.shape p = Ok s ->
  Planet.molecules p = Some ms ->
  Forall (fun f => In (name f) (map fst (atmosphere_type_dict cfg)))
         (Molecules.molecules ms) ->
  aerosol_names p = known ++ aerosol :: rest ->
  Forall (fun a => In a (map fst (aerosol_type_dict cfg))) known ->
  ~ In aerosol (map fst (aerosol_type_dict cfg)) ->
  Planet.psg_params cfg p = Raise (KeyError aerosol).
Proof.
  intros S M G N K U. unfold Planet.psg_params.
  rewrite S. destruct s as [[nlayer nlon] nlat]. simpl. rewrite M. simpl.
  destruct (map_m_total (Planet.gas_type (atmosphere_type_dict cfg))
              (map name (Molecules.molecules ms))) as (gts & Hg & _).
  { apply Forall_map. eapply Forall_impl; [|exact G]. intros f Hf.
    apply gas_type_total. destruct (getitem_in _ _ Hf) as (v & E & _). eauto. }
  rewrite Hg. simpl.
  fold (aerosol_names p). rewrite N.
  rewrite (map_m_first_raise _ known aerosol rest (KeyError aerosol)); [reflexivity| |].
  - eapply Forall_impl; [|exact K]. intros a Ha.
    destruct (getitem_in _ _ Ha) as (v & E & _). eauto.
  - apply getitem_not_in, U.
Qed.

Lemma X9_witness :
  Planet.psg_params sample_config aerosol_planet = Raise (KeyError "WaterIce").
Proof.
  refine (X9_unknown_aerosol sample_config aerosol_planet (2, 2, 2)%nat h2o_molecules
            ["Water"%string] [] "WaterIce" eq_refl eq_refl _ eq_refl _ _).
  - repeat constructor.
  - repeat constructor.
  - simpl. intuition discriminate.
Defined.

(** ** Spacing of the axes *)

Lemma Forall2_Qeq_nth (l l' : list Q) (i : nat) :
  Forall2 Qeq l l' -> nth i l 0 == nth i l' 0.
Proof.
  intros H. revert i. induction H as [|x y l l' E _ IH]; intros [|i]; simpl;
    try reflexivity; auto.
Qed.

Lemma even_grid_nth (start step : Q) (n i : nat) :
  (i < n)%nat -> nth i (even_grid start step n) 0 = start + Qnat i * step.
Proof.
  intros H. unfold even_grid.
  rewrite (nth_indep _ 0 ((fun j => start + Qnat j * step) 0%nat))
    by (rewrite length_map, length_seq; exact H).
  rewrite (map_nth (fun j => start + Qnat j * step)), seq_nth by exact H.
  reflexivity.
Qed.

Lemma Qnat_succ (i : nat) : Qnat (S i) == Qnat i + 1.
Proof.
  unfold Qnat. rewrite Nat2Z.inj_succ. unfold Z.succ.
  rewrite inject_Z_plus. reflexivity.
Qed.

(** X10: on a Planet of shape (n_layer, n_lon, n_lat) with [n_lon >= 1], any
    two consecutive points of [lons] are exactly [dlon] apart, the first point
    is -180, and one more [dlon] after the last point is +180 (in exact
    arithmetic). *)
Theorem X10_lons_spacing_is_dlon (p : Planet.t) (nlayer nlon nlat : nat) :
  Planet.shape p = Ok (nlayer, nlon, nlat) ->
  (1 <= nlon)%nat ->
  exists lo d,
    Planet.lons p = Ok lo /\
    Planet.dlon p = Ok (Fin d) /\
    (forall i, (S i < nlon)%nat -> nth (S i) lo 0 - nth i lo 0 == d) /\
    nth 0 lo 0 == -180 /\
    nth (nlon - 1) lo 0 + d == 180.
Proof.
  intros S H.
  destruct (shape_axes p nlayer nlon nlat S) as (Hlo & _ & Hd & _).
  exists (linspace (-180) 180 nlon false), (360 / Qnat nlon).
  pose proof (Qnat_nonzero nlon H) as N.
  split; [exact Hlo|].
  split; [rewrite Hd; destruct nlon; [lia|reflexivity]|].
  pose proof (lons_grid nlon) as G.
  split; [|split].
  - intros i Hi.
    rewrite !(Forall2_Qeq_nth _ _ _ G), !even_grid_nth by lia.
    rewrite Qnat_succ. ring.
  - rewrite (Forall2_Qeq_nth _ _ _ G), even_grid_nth by lia.
    unfold Qnat. simpl. ring.
  - rewrite (Forall2_Qeq_nth _ _ _ G), even_grid_nth by lia.
    assert (E : Qnat (nlon - 1) == Qnat nlon - 1).
    { unfold Qnat. rewrite Nat2Z.inj_sub by lia.
      unfold Z.sub. rewrite inject_Z_plus, inject_Z_opp. reflexivity. }
    rewrite E. field. exact N.
Qed.

Lemma X10_witness :
  exists lo d,
    Planet.lons h2o_planet = Ok lo /\ Planet.dlon h2o_planet = Ok (Fin d) /\
    nth 1 lo 0 - nth 0 lo 0 == d.
Proof.
  destruct (X10_lons_spacing_is_dlon h2o_planet 2 2 2 eq_refl ltac:(repeat constructor))
    as (lo & d & Hlo & Hd & Sp & _).
  exists lo, d. repeat split; try assumption.
  apply Sp. repeat constructor.
Defined.

(** X11: on a Planet of shape (n_layer, n_lon, n_lat) with [n_lat >= 2], any
    two consecutive points of [lats] are 180 / (n_lat - 1) apart, which is
    more than [dlat] = 180 / n_lat: [n_lat] steps of [dlat] span what
    [n_lat - 1] steps of the axis span (in exact arithmetic). *)
Theorem X11_lats_spacing_exceeds_dlat (p : Planet.t) (nlayer nlon nlat : nat) :
  Planet.shape p = Ok (nlayer, nlon, nlat) ->
  (2 <= nlat)%nat ->
  exists la d step,
    Planet.lats p = Ok la /\
    Planet.dlat p = Ok (Fin d) /\
    step == 180 / Qnat (nlat - 1) /\
    (forall i, (S i < nlat)%nat -> nth (S i) la 0 - nth i la 0 == step) /\
    d < step /\
    d * Qnat nlat == step * Qnat (nlat - 1).
Proof.
  intros S H.
  destruct (shape_axes p nlayer nlon nlat S) as (_ & Hla & _ & Hd).
  exists (linspace (-90) 90 nlat true), (180 / Qnat nlat), (180 / Qnat (nlat - 1)).
  assert (N : ~ Qnat nlat == 0) by (apply Qnat_nonzero; lia).
  assert (N1 : ~ Qnat (nlat - 1) == 0) by (apply Qnat_nonzero; lia).
  assert (P : 0 < Qnat nlat) by (apply Qnat_pos; lia).
  assert (P1 : 0 < Qnat (nlat - 1)) by (apply Qnat_pos; lia).
  assert (L : Qnat (nlat - 1) < Qnat nlat) by (apply Qnat_lt; lia).
  split; [exact Hla|].
  split; [rewrite Hd; destruct nlat; [lia|reflexivity]|].
  split; [reflexivity|].
  destruct (linspace_closed_grid (-90) 90 nlat H) as [G _].
  split; [|split].
  - intros i Hi.
    rewrite !(Forall2_Qeq_nth _ _ _ G), !even_grid_nth by lia.
    rewrite Qnat_succ. field. exact N1.
  - apply Qlt_shift_div_l; [exact P1|].
    assert (E : 180 / Qnat nlat * Qnat (nlat - 1)
                == 180 - 180 * (Qnat nlat - Qnat (nlat - 1)) / Qnat nlat)
      by (field; exact N).
    rewrite E.
    assert (0 < 180 * (Qnat nlat - Qnat (nlat - 1)) / Qnat nlat).
    { apply Qlt_shift_div_l; [exact P|]. lra. }
    lra.
  - field. split; assumption.
Qed.

Lemma X11_witness :
  exists la d,
    Planet.lats h2o_planet = Ok la /\ Planet.dlat h2o_planet = Ok (Fin d) /\
    nth 1 la 0 - nth 0 la 0 == 180 /\ d < 180.
Proof.
  destruct (X11_lats_spacing_exceeds_dlat h2o_planet 2 2 2 eq_refl ltac:(repeat constructor))
    as (la & d & step & Hla & Hd & Est & Sp & Lt & _).
  exists la, d. split; [exact Hla|]. split; [exact Hd|].
  assert (E : step == 180) by (rewrite Est; reflexivity).
  split.
  - rewrite (Sp 0%nat ltac:(repeat constructor)). exact E.
  - rewrite <- E. exact Lt.
Defined.

(** ** Planet.from_dict *)

Lemma aerosols_from_dict_ok_none {raw : Type} (Quantity : raw -> result quantity)
    (d : dict (dict raw)) (shape : shape_t) (r : option Aerosols.t) :
  Aerosols.from_dict Quantity d shape = Ok r -> r = None.
Proof.
  unfold Aerosols.from_dict, Aerosols._from_dict. intros H.
  bind_inv H st Hst. congruence.
Qed.

Lemma aerosols_loop_ok_entries {raw : Type} (Quantity : raw -> result quantity)
    (shape : shape_t) (d : dict (dict raw)) :
  forall st st',
    Aerosols._from_dict_loop Quantity shape st d = Ok st' ->
    Forall (entry_ok Quantity) d.
Proof.
  induction d as [|[key value] d IH]; intros [aersols sizes] st' H; [constructor|].
  simpl in H. bind_inv H st1 H1.
  bind_inv H1 a Ha. bind_inv H1 qa Hqa. bind_inv H1 s Hs. bind_inv H1 qs Hqs.
  constructor; [|exact (IH _ _ H)].
  exists a, s, qa, qs. simpl. auto.
Qed.

Lemma aerosols_from_dict_entries {raw : Type} (Quantity : raw -> result quantity)
    (d : dict (dict raw)) (shape : shape_t) :
  (exists r, Aerosols.from_dict Quantity d shape = Ok r) <-> Forall (entry_ok Quantity) d.
Proof.
  unfold Aerosols.from_dict, Aerosols._from_dict. split.
  - intros (r & H). bind_inv H st Hst. exact (aerosols_loop_ok_entries _ _ _ _ _ Hst).
  - intros H. destruct (aerosols_loop_total Quantity shape d H ([], [])) as (st & E & _).
    rewrite E. exists None. reflexivity.
Qed.

(** Invert every step of a run that returned. *)
Ltac binds_inv H :=
  repeat (let x := fresh "x" in let Hx := fresh "Hx" in bind_inv H x Hx).

(** X12: a Planet that [Planet.from_dict] returns has no aerosols, whether or
    not the mapping has an ['aerosols'] section; its wind, surface
    temperature, surface pressure, albedo, emissivity, temperature, pressure
    and molecules are all present, and it has passed [validate]. *)
Theorem X12_from_dict_drops_aerosols {raw pyfloat_t : Type}
    (st : structure_api raw pyfloat_t) (d : planet_mapping raw) (p : Planet.t) :
  PlanetFactory.from_dict st d = Ok p ->
  Planet.aerosols p = None /\
  valid p /\
  Planet.wind p <> None /\ Planet.tsurf p <> None /\ Planet.psurf p <> None /\
  Planet.albedo p <> None /\ Planet.emissivity p <> None /\
  Planet.temperature p <> None /\ Planet.pressure p <> None /\
  Planet.molecules p <> None.
Proof.
  unfold PlanetFactory.from_dict. intros H.
  remember Planet.__init__ as init eqn:Einit.
  binds_inv H. subst init.
  apply init_ok_iff in H. destruct H as [-> V].
  match goal with
  | Ha : match map_aerosols d with _ => _ end = Ok ?a |- _ =>
      assert (a = None)
        by (destruct (map_aerosols d);
            [exact (aerosols_from_dict_ok_none _ _ _ _ Ha)|congruence]);
      subst a
  end.
  simpl. repeat split; try exact V; discriminate.
Qed.

Lemma X12_witness :
  exists p,
    PlanetFactory.from_dict sample_api sample_mapping = Ok p /\
    Planet.aerosols p = None.
Proof.
  destruct (PlanetFactory.from_dict sample_api sample_mapping) as [p|e] eqn:E;
    [|vm_compute in E; discriminate E].
  exists p. split; [reflexivity|].
  exact (proj1 (X12_from_dict_drops_aerosols sample_api sample_mapping p E)).
Defined.

(** Both sides run the same step first: compare what follows it. *)
Ltac step_both :=
  match goal with
  | |- bind ?m _ = bind ?m _ => destruct m; simpl bind; [|reflexivity]
  end.

(** X13: an ['aerosols'] section is read and then dropped. When each of its
    entries has the keys 'abn' and 'size' with values [u.Quantity] accepts,
    [Planet.from_dict] does exactly what it does on the mapping without the
    section; and it returns a Planet only if the entries are of that form. *)
Theorem X13_aerosols_section_ignored {raw pyfloat_t : Type}
    (st : structure_api raw pyfloat_t) (d : planet_mapping raw) (ad : dict (dict raw)) :
  map_aerosols d = Some ad ->
  (Forall (entry_ok (Quantity st)) ad ->
   PlanetFactory.from_dict st d = PlanetFactory.from_dict st (without_aerosols d)) /\
  (forall p, PlanetFactory.from_dict st d = Ok p -> Forall (entry_ok (Quantity st)) ad).
Proof.
  intros Ha. split.
  - intros Hok. unfold PlanetFactory.from_dict, without_aerosols. simpl.
    repeat step_both.
    rewrite Ha.
    match goal with
    | |- context [Aerosols.from_dict ?q ad ?s] =>
        destruct (proj2 (aerosols_from_dict_entries q ad s) Hok) as (r & Hr);
        rewrite Hr, (aerosols_from_dict_ok_none _ _ _ _ Hr)
    end.
    reflexivity.
  - intros p H. unfold PlanetFactory.from_dict in H.
    remember Planet.__init__ as init eqn:Einit.
    binds_inv H.
    match goal with
    | Hm : match map_aerosols d with _ => _ end = Ok ?a |- _ =>
        rewrite Ha in Hm;
        exact (proj1 (aerosols_from_dict_entries _ _ _) (ex_intro _ _ Hm))
    end.
Qed.

Lemma X13_witness :
  PlanetFactory.from_dict sample_api sample_mapping
  = PlanetFactory.from_dict sample_api (without_aerosols sample_mapping).
Proof.
  refine (proj1 (X13_aerosols_section_ignored sample_api sample_mapping _ eq_refl) _).
  repeat constructor; simpl; do 4 eexists; repeat split; reflexivity.
Defined.

(** X14: on a Planet that [Planet.from_dict] returns, the molecules are named
    by the keys of the ['molecules'] section, in the section's order, and have
    the shape read from the ['shape'] section; so whenever [psg_params]
    returns, its gas count is the number of these keys and its gas list is the
    keys joined by commas. *)
Theorem X14_from_dict_gas_list {raw pyfloat_t : Type}
    (st : structure_api raw pyfloat_t) (d : planet_mapping raw) (p : Planet.t) :
  PlanetFactory.from_dict st d = Ok p ->
  exists md ms,
    map_molecules d = Some md /\
    Planet.molecules p = Some ms /\
    map name (Molecules.molecules ms) = map fst md /\
    (forall f, In f (Molecules.molecules ms) ->
       exists pr, Planet.pressure p = Some pr /\ Field_shape f = Field_shape pr) /\
    (forall cfg params, Planet.psg_params cfg p = Ok params ->
       getitem params "ATMOSPHERE-NGAS" = Ok (str_nat (List.length md)) /\
       getitem params "ATMOSPHERE-GAS" = Ok (String.concat "," (map fst md))).
Proof.
  unfold PlanetFactory.from_dict. intros H.
  remember Planet.__init__ as init eqn:Einit.
  binds_inv H. subst init.
  apply init_ok_iff in H. destruct H as [-> V].
  match goal with
  | Hs : section (map_molecules d) _ = Ok ?md,
    Hm : Molecules.from_dict _ ?md _ = Ok ?ms |- _ =>
      exists md, ms;
      destruct (map_molecules d) as [md'|] eqn:Em; [|discriminate Hs];
      inversion Hs; subst md'
  end.
  match goal with
  | Hm : Molecules.from_dict ?q ?md ?s = Ok ?ms |- _ =>
      destruct (molecules_from_dict_inv q md s ms Hm) as (N & L & _)
  end.
  split; [reflexivity|]. split; [reflexivity|]. split; [exact N|].
  split.
  - intros f Hf. apply validate_ok_iff in V.
    destruct V as (pr & Hpr & A). exists pr. split; [exact Hpr|].
    pose proof (agree_molecules _ _ A _ eq_refl) as F. simpl in F.
    rewrite Forall_forall in F. apply F, Hf.
  - intros cfg params Hp.
    destruct (psg_params_inv cfg _ params Hp)
      as (ms' & nl & nlo & nla & M & _ & _ & _ & _ & G1 & G2 & _).
    simpl in M. inversion M; subst ms'.
    rewrite G1, G2, N, L. split; reflexivity.
Qed.

Lemma X14_witness :
  exists p ms,
    PlanetFactory.from_dict sample_api sample_mapping = Ok p /\
    Planet.molecules p = Some ms /\
    map name (Molecules.molecules ms) = ["CO2"; "H2O"]%string.
Proof.
  destruct (PlanetFactory.from_dict sample_api sample_mapping) as [p|e] eqn:E;
    [|vm_compute in E; discriminate E].
  destruct (X14_from_dict_gas_list sample_api sample_mapping p E)
    as (md & ms & Hmd & Hms & N & _).
  exists p, ms. split; [reflexivity|]. split; [exact Hms|].
  rewrite N. simpl in Hmd. inversion Hmd. reflexivity.
Defined.

(** ** get_wavelengths *)

Lemma stepwise_snoc (ops : float_ops) (R : Z) (pre : list (fl ops)) (x dlam : fl ops) :
  stepwise ops R (pre ++ [x]) ->
  fdiv_int ops x R = Some dlam ->
  stepwise ops R ((pre ++ [x]) ++ [fadd ops x dlam]).
Proof.
  intros H D. induction pre as [|a pre IH]; simpl.
  - split; [exists dlam; auto|exact I].
  - destruct pre as [|b pre]; simpl in *.
    + destruct H as [H1 _]. split; [exact H1|]. split; [exists dlam; auto|exact I].
    + destruct H as [H1 H2]. split; [exact H1|]. apply IH, H2.
Qed.

(** The loop keeps what it has collected, every point before the current one
    being below [lam2]. *)
Lemma get_wavelengths_loop_inv (ops : float_ops) (R : Z) (lam2 : fl ops) (fuel : nat) :
  forall (lam : fl ops) (pre out : list (fl ops)),
    get_wavelengths_loop ops fuel R lam2 lam (pre ++ [lam]) = Returned out ->
    Forall (fun x => flt ops x lam2 = true) pre ->
    stepwise ops R (pre ++ [lam]) ->
    exists body last,
      out = body ++ [last] /\
      (exists more, body = pre ++ more) /\
      Forall (fun x => flt ops x lam2 = true) body /\
      flt ops last lam2 = false /\
      stepwise ops R out /\
      (List.length out <= List.length pre + fuel)%nat /\
      (exists suffix, out = (pre ++ [lam]) ++ suffix).
Proof.
  induction fuel as [|fuel IH]; intros lam pre out H Hpre Hst; simpl in H; [discriminate|].
  destruct (flt ops lam lam2) eqn:Elt.
  - destruct (fdiv_int ops lam R) as [dlam|] eqn:Ed; [|discriminate].
    destruct (IH (fadd ops lam dlam) (pre ++ [lam]) out H) as
      (body & last & E & (more & Em) & Fb & Fl & So & Len & (suffix & Es)).
    + apply Forall_app. split; [exact Hpre|]. constructor; [exact Elt|constructor].
    + apply stepwise_snoc; assumption.
    + exists body, last. split; [exact E|].
      split; [exists ([lam] ++ more); rewrite Em, <- app_assoc; reflexivity|].
      split; [exact Fb|]. split; [exact Fl|]. split; [exact So|].
      split; [rewrite length_app in Len; simpl in Len; lia|].
      exists ([fadd ops lam dlam] ++ suffix). rewrite Es, <- !app_assoc. reflexivity.
  - inversion H; subst out. exists pre, lam.
    split; [reflexivity|]. split; [exists []; rewrite app_nil_r; reflexivity|].
    split; [exact Hpre|]. split; [exact Elt|]. split; [exact Hst|].
    split; [rewrite length_app; simpl; lia|].
    exists []. rewrite app_nil_r. reflexivity.
Qed.

Lemma get_wavelengths_loop_more_fuel (ops : float_ops) (R : Z) (lam2 : fl ops)
    (fuel : nat) :
  forall (lam : fl ops) (lams out : list (fl ops)) (extra : nat),
    get_wavelengths_loop ops fuel R lam2 lam lams = Returned out ->
    get_wavelengths_loop ops (fuel + extra) R lam2 lam lams = Returned out.
Proof.
  induction fuel as [|fuel IH]; intros lam lams out extra H; simpl in *; [discriminate|].
  destruct (flt ops lam lam2); [|exact H].
  destruct (fdiv_int ops lam R); [|discriminate].
  apply IH, H.
Qed.

(** X15: when [get_wavelengths] returns, the list starts with [lam1], every
    point but the last is below [lam2] and the last is not, each point after
    the first is its predecessor plus the predecessor over the resolving
    power, and the list has at most as many points as the loop tested its
    condition; more fuel gives the same list. This holds for any float
    arithmetic. *)
Theorem X15_get_wavelengths_returned (ops : float_ops) (fuel : nat) (R : Z)
    (lam1 lam2 : fl ops) (lams : list (fl ops)) :
  get_wavelengths ops fuel R lam1 lam2 = Returned lams ->
  (exists body last,
     lams = body ++ [last] /\
     Forall (fun x => flt ops x lam2 = true) body /\
     flt ops last lam2 = false) /\
  hd_error lams = Some lam1 /\
  stepwise ops R lams /\
  (1 <= List.length lams <= fuel)%nat /\
  (flt ops lam1 lam2 = false -> lams = [lam1]) /\
  (forall extra, get_wavelengths ops (fuel + extra) R lam1 lam2 = Returned lams).
Proof.
  unfold get_wavelengths. intros H.
  pose proof (get_wavelengths_loop_inv ops R lam2 fuel lam1 [] lams H
                (Forall_nil _) I)
    as (body & last & E & _ & Fb & Fl & So & Len & (suffix & Es)).
  simpl in Len, Es.
  split; [exists body, last; auto|].
  split; [rewrite Es; reflexivity|].
  split; [exact So|].
  split; [rewrite Es in *; simpl in *; lia|].
  split.
  { intros Elt. destruct fuel as [|fuel]; simpl in H; [discriminate|].
    rewrite Elt in H. inversion H. reflexivity. }
  intros extra. apply get_wavelengths_loop_more_fuel, H.
Qed.

Lemma X15_witness :
  get_wavelengths Q_ops 3 1 1 3 = Returned [1; 1 + 1 / inject_Z 1;
                                            (1 + 1 / inject_Z 1)
                                            + (1 + 1 / inject_Z 1) / inject_Z 1] /\
  get_wavelengths Q_ops (3 + 7) 1 1 3 = get_wavelengths Q_ops 3 1 1 3.
Proof.
  assert (E : get_wavelengths Q_ops 3 1 1 3
              = Returned [1; 1 + 1 / inject_Z 1;
                          (1 + 1 / inject_Z 1) + (1 + 1 / inject_Z 1) / inject_Z 1])
    by reflexivity.
  split; [exact E|].
  rewrite E.
  exact (proj2 (proj2 (proj2 (proj2 (proj2
           (X15_get_wavelengths_returned Q_ops 3 1 1 3 _ E))))) 7%nat).
Defined.

Lemma get_wavelengths_loop_trapped (ops : float_ops) (R : Z) (lam2 : fl ops)
    (P : fl ops -> Prop) :
  (forall x, P x ->
     flt ops x lam2 = true /\
     exists dlam, fdiv_int ops x R = Some dlam /\ P (fadd ops x dlam)) ->
  forall fuel lam lams,
    P lam -> get_wavelengths_loop ops fuel R lam2 lam lams = OutOfFuel.
Proof.
  intros Step. induction fuel as [|fuel IH]; intros lam lams Hl; simpl; [reflexivity|].
  destruct (Step lam Hl) as (Elt & dlam & Ed & Hn).
  rewrite Elt, Ed. apply IH, Hn.
Qed.

(** X16: [get_wavelengths] has no bound on its loop. When [lam1] lies in a set
    of values that are all below [lam2] and that the step
    [lam + lam / resolving_power] maps into itself (a start at or below zero
    with a positive resolving power, or a start so small against the
    resolving power that the sum rounds back to it), the loop neither returns
    nor raises, however many times its condition is tested. *)
Theorem X16_get_wavelengths_never_ends (ops : float_ops) (R : Z) (lam1 lam2 : fl ops)
    (P : fl ops -> Prop) :
  P lam1 ->
  (forall x, P x ->
     flt ops x lam2 = true /\
     exists dlam, fdiv_int ops x R = Some dlam /\ P (fadd ops x dlam)) ->
  forall fuel, get_wavelengths ops fuel R lam1 lam2 = OutOfFuel.
Proof.
  intros H Step fuel. unfold get_wavelengths.
  exact (get_wavelengths_loop_trapped ops R lam2 P Step fuel lam1 [lam1] H).
Qed.

(** From the start 0 towards 1 at resolving power 50 the wavelength stays at
    or below zero. *)
Lemma X16_witness : get_wavelengths Q_ops 1000 50 0 1 = OutOfFuel.
Proof.
  apply (X16_get_wavelengths_never_ends Q_ops 50 (0 : Q) (1 : Q) (fun x : Q => x <= 0)).
  - apply Qle_refl.
  - intros x Hx. split.
    + simpl. destruct (Qlt_le_dec x 1) as [_|L]; [reflexivity|]. exfalso. lra.
    + exists (x / inject_Z 50). split; [reflexivity|]. simpl.
      assert (E : x / inject_Z 50 == x * (1 # 50)) by (unfold Qdiv; reflexivity).
      rewrite E. lra.
Defined.

(** ** The header of a binned spectrum *)

Lemma drop_last_snoc (s : string) (c : ascii) :
  drop_last (s ++ String c EmptyString) = s.
Proof.
  induction s as [|a s IH]; simpl; [reflexivity|].
  rewrite IH. destruct s; reflexivity.
Qed.

Lemma unit_of_column_bracketed (label unit_str : string) :
  has_char "["%char label = false ->
  has_char "["%char unit_str = false ->
  unit_of_column (label ++ "[" ++ unit_str ++ "]") = Some unit_str.
Proof.
  intros Hl Hu. unfold unit_of_column.
  change (label ++ "[" ++ unit_str ++ "]")%string
    with (label ++ String "["%char (unit_str ++ "]"))%string.
  rewrite (split_on_app "["%char label _ Hl).
  rewrite split_on_no_sep by (rewrite has_char_app, Hu; reflexivity).
  rewrite drop_last_snoc. reflexivity.
Qed.

(** X17: the header line that [write_binned_spectrum] writes reads back: split
    at its comma it gives the two column names, and the expression
    [col.split('[')[1][:-1]] of [read_binned_spectrum] gives back the
    wavelength unit from the first and the flux unit from the second, whenever
    neither unit string holds a '[' or a comma. A column name without '['
    makes the subscript fail. *)
Theorem X17_header_units_round_trip (wavelength_unit_str flux_unit_str : string) :
  has_char "["%char wavelength_unit_str = false ->
  has_char comma wavelength_unit_str = false ->
  has_char "["%char flux_unit_str = false ->
  has_char comma flux_unit_str = false ->
  exists wave_col flux_col,
    split_on comma (binned_header wavelength_unit_str flux_unit_str)
      = [wave_col; flux_col] /\
    unit_of_column wave_col = Some wavelength_unit_str /\
    unit_of_column flux_col = Some flux_unit_str /\
    (forall col, has_char "["%char col = false -> unit_of_column col = None).
Proof.
  intros Hw1 Hw2 Hf1 Hf2.
  exists ("wavelength[" ++ wavelength_unit_str ++ "]")%string,
         (" flux[" ++ flux_unit_str ++ "]")%string.
  split.
  - unfold binned_header.
    change ("wavelength[" ++ wavelength_unit_str ++ "], flux[" ++ flux_unit_str ++ "]")%string
      with ("wavelength[" ++ (wavelength_unit_str
              ++ ("]" ++ String comma (" flux[" ++ flux_unit_str ++ "]"))))%string.
    rewrite <- !append_assoc.
    rewrite split_on_app
      by (rewrite !has_char_app, Hw2; reflexivity).
    rewrite split_on_no_sep by (rewrite !has_char_app, Hf2; reflexivity).
    rewrite append_assoc. reflexivity.
  - split; [exact (unit_of_column_bracketed "wavelength" _ eq_refl Hw1)|].
    split; [exact (unit_of_column_bracketed " flux" _ eq_refl Hf1)|].
    intros col Hc. unfold unit_of_column. rewrite (split_on_no_sep _ _ Hc). reflexivity.
Qed.

Lemma X17_witness :
  exists wave_col flux_col,
    split_on comma (binned_header "um" "W / (m2 um)") = [wave_col; flux_col] /\
    unit_of_column wave_col = Some "um"%string /\
    unit_of_column flux_col = Some "W / (m2 um)"%string.
Proof.
  destruct (X17_header_units_round_trip "um" "W / (m2 um)" eq_refl eq_refl eq_refl eq_refl)
    as (w & f & S & U1 & U2 & _).
  exists w, f. auto.
Defined.

(** ** What the aerosol factory builds *)

Lemma aerosols_loop_lists {raw : Type} (Quantity : raw -> result quantity)
    (shape : shape_t) (d : dict (dict raw)) :
  forall st st',
    Aerosols._from_dict_loop Quantity shape st d = Ok st' ->
    map name (fst st') = map name (fst st) ++ map fst d /\
    map name (snd st')
    = map name (snd st) ++ map (fun kv => (fst kv ++ "_size")%string) d /\
    (Forall (fun f => Field_shape f = shape) (fst st) ->
     Forall (fun f => Field_shape f = shape) (fst st')) /\
    (Forall (fun f => Field_shape f = shape) (snd st) ->
     Forall (fun f => Field_shape f = shape) (snd st')).
Proof.
  induction d as [|[key value] d IH]; intros [aersols sizes] st' H; simpl in H.
  - inversion H; subst st'. simpl. rewrite !app_nil_r. auto.
  - bind_inv H st1 H1.
    bind_inv H1 a Ha. bind_inv H1 qa Hqa. bind_inv H1 s Hs. bind_inv H1 qs Hqs.
    inversion H1; subst st1. clear H1.
    destruct (IH _ _ H) as (N1 & N2 & S1 & S2). simpl fst in *. simpl snd in *.
    rewrite N1, N2, !map_app. simpl. rewrite <- !app_assoc. simpl.
    split; [reflexivity|]. split; [reflexivity|].
    split; intros F; [apply S1|apply S2]; apply Forall_app; split; try exact F;
      constructor; [reflexivity|constructor|reflexivity|constructor].
Qed.

(** X18: the two lists that the loop of [Aerosols._from_dict] builds, before
    the function drops them, hold one Field per entry of the mapping in the
    mapping's order: the abundance under the entry's key, the size under the
    key followed by "_size", all of the requested shape. *)
Theorem X18_aerosol_loop_builds_pairs {raw : Type} (Quantity : raw -> result quantity)
    (d : dict (dict raw)) (shape : shape_t) (aersols sizes : list Field) :
  Aerosols._from_dict_loop Quantity shape ([], []) d = Ok (aersols, sizes) ->
  map name aersols = map fst d /\
  map name sizes = map (fun kv => (fst kv ++ "_size")%string) d /\
  Forall (fun f => Field_shape f = shape) (aersols ++ sizes) /\
  Aerosols._from_dict Quantity d shape = Ok None.
Proof.
  intros H. destruct (aerosols_loop_lists Quantity shape d _ _ H) as (N1 & N2 & S1 & S2).
  simpl in N1, N2, S1, S2.
  split; [exact N1|]. split; [exact N2|].
  split; [apply Forall_app; split; [apply S1|apply S2]; constructor|].
  unfold Aerosols._from_dict. rewrite H. reflexivity.
Qed.

Lemma X18_witness :
  exists aersols sizes,
    Aerosols._from_dict_loop (fun v : Z => Ok (v, "um"%string)) [2; 2; 2]%nat ([], [])
      [("Water"%string, [("abn"%string, 5%Z); ("size"%string, 7%Z)]);
       ("WaterIce"%string, [("abn"%string, 1%Z); ("size"%string, 2%Z)])]
    = Ok (aersols, sizes) /\
    map name aersols = ["Water"; "WaterIce"]%string /\
    map name sizes = ["Water_size"; "WaterIce_size"]%string.
Proof.
  eexists. eexists. split; [reflexivity|].
  destruct (X18_aerosol_loop_builds_pairs (fun v : Z => Ok (v, "um"%string))
              [("Water"%string, [("abn"%string, 5%Z); ("size"%string, 7%Z)]);
               ("WaterIce"%string, [("abn"%string, 1%Z); ("size"%string, 2%Z)])]
              [2; 2; 2]%nat _ _ eq_refl) as (N1 & N2 & _).
  split; [exact N1|exact N2].
Defined.

(** ** Names and Fields *)

Lemma opt_entries_length {A : Type} (o : option A) (g : A -> list Field) :
  List.length (opt_entries o (fun a => map field_entry (g a)))
  = List.length (opt_fields o g).
Proof. destruct o; simpl; [apply length_map|reflexivity]. Qed.

(** X19: the header names fewer variables than the payload has Fields when
    the wind is present: on a valid Planet the list of names in
    [gcm_properties] has one entry per Field, except that the two wind Fields
    share the one entry "Winds". *)
Theorem X19_names_versus_fields (p : Planet.t) (names : list string) :
  valid p ->
  Planet.gcm_vars p = Ok names ->
  List.length (all_fields p) = (List.length names + opt_count (Planet.wind p))%nat /\
  (forall w, Planet.wind p = Some w -> hd_error names = Some "Winds"%string).
Proof.
  intros V H.
  apply validate_ok_iff in V.
  destruct V as (pr & Hpr & [_ (ps & Hps & _) _ _ _ _ _ _]).
  rewrite (gcm_vars_eq p ps pr Hps Hpr) in H. inversion H; subst names. clear H.
  split.
  - unfold contributing, all_fields. rewrite length_map, !length_app.
    destruct (Planet.wind p), (Planet.tsurf p), (Planet.psurf p), (Planet.albedo p),
             (Planet.emissivity p), (Planet.temperature p), (Planet.pressure p);
      simpl;
      (destruct (Planet.molecules p), (Planet.aerosols p); simpl;
       rewrite ?length_map, ?length_app, ?length_map; lia).
  - intros w Hw. unfold contributing. rewrite Hw. reflexivity.
Qed.

Lemma X19_witness :
  exists names,
    Planet.gcm_vars h2o_planet = Ok names /\
    List.length (all_fields h2o_planet) = (List.length names + 0)%nat.
Proof.
  eexists. split; [reflexivity|].
  exact (proj1 (X19_names_versus_fields h2o_planet _ eq_refl eq_refl)).
Defined.
